(** * FakePicoScope: a shallow embedding of [gamma_spectroscopy/fake_picoscope.py]

    The Python class [FakePicoScope] simulates a 5000 Series PicoScope: it
    converts a timebase into a sampling interval, starts a "run" whose
    completion is announced by a [threading.Timer] half a second later, and
    hands out placeholder data.

    Conventions of the embedding:
    - a Python [int] is a [Z]; a Python [float] is a binary64 number, the
      kernel's primitive [float] (both round to nearest, ties to even);
    - a raised exception is the [Raise] result of an error monad; methods of
      the object are computations in a state-and-error monad over the record
      [FakePicoScope], and an exception keeps the attributes written before
      it was raised;
    - the [Timer] objects live in a store, [self._timer] holds an index in
      it (the object is shared between the attribute and the timer thread);
    - time is a counter of milliseconds, the nominal time of the timers:
      the timer threads run when the environment lets time pass
      ([advance]), one at a time, and a timer is taken to fire when its
      interval is over, where the thread of the program fires then or
      shortly after; so what is stated of the time of a call is that it
      does not come earlier;
    - an array is the list of its elements; numpy refuses a shape it cannot
      hold ([ValueError]), and so does the model; that memory runs out
      while an array is built ([MemoryError]) depends on the machine and is
      outside the model: what is stated of the data that [get_data]
      returns is stated for arrays of at most [max_elements] elements. *)

From Stdlib Require Import ZArith Lia Bool String.
From Stdlib Require Import Floats.PrimFloat Floats.SpecFloat Floats.FloatOps.
From stdpp Require Import base list.

#[local] Set Warnings "-inexact-float".
#[local] Open Scope Z_scope.

(** ** Python values and exceptions *)

Inductive exn : Set :=
| AttributeError
| KeyError
| NotImplementedError
| OverflowError
| ValueError.

Inductive result (A : Type) : Type :=
| Ok (a : A)
| Raise (e : exn).
Arguments Ok {A} a.
Arguments Raise {A} e.

#[global] Instance result_ret : MRet result := fun _ a => Ok a.
#[global] Instance result_bind : MBind result := fun _ _ k r =>
  match r with
  | Ok a => k a
  | Raise e => Raise e
  end.

(** A number is an [int] or a [float]; [2 ** n] gives either. *)
Inductive pynum : Set :=
| PyInt (z : Z)
| PyFloat (f : float).

(** ** Conversions between [int] and [float] *)

(** The binary64 number nearest to [m * 2^e] (ties to even); [infinity]
    beyond the range. *)
Definition float_of_scaled (m e : Z) : float :=
  SF2Prim (binary_normalize prec emax m e false).

Definition float_of_Z (z : Z) : float := float_of_scaled z 0.

(** The first magnitude that rounds to [2^1024]: halfway between the largest
    binary64 number, [2^1024 - 2^971], and [2^1024]. *)
Definition float_overflow_bound : Z := 2 ^ 1024 - 2 ^ 970.

(** [float(z)] for an [int] operand of [/] or of [**] with a negative
    exponent: rounds to nearest, and raises
    [OverflowError: int too large to convert to float] when the rounded
    value leaves the binary64 range. *)
Definition int_to_float (z : Z) : result float :=
  if Z.abs z <? float_overflow_bound then Ok (float_of_Z z)
  else Raise OverflowError.

Definition to_float (x : pynum) : result float :=
  match x with
  | PyInt z => int_to_float z
  | PyFloat f => Ok f
  end.

(** [2 ** e] for an [int] exponent: an [int] when [e >= 0]; for [e < 0]
    both operands become floats, which raises when [e] does not convert,
    and the result is the float [2.0 ** e]: the power of two [2^e] down to
    [e = -1074], the smallest binary64 number, and [0.0] below. *)
Definition py_pow2 (e : Z) : result pynum :=
  if 0 <=? e then Ok (PyInt (2 ^ e))
  else _ ← int_to_float e; Ok (PyFloat (float_of_scaled 1 e)).

(** [x / d] for a float [d] that is not zero. *)
Definition py_truediv (x : pynum) (d : float) : result float :=
  f ← to_float x; Ok (f / d)%float.

(** ** [get_interval_from_timebase]

<<
    def get_interval_from_timebase(self, timebase, num_samples=1000):
        if timebase <= 3:
            return 2 ** (timebase - 1) / 500e6 * 1e9
        else:
            return (timebase - 3) / 62.5e6 * 1e9
>>
    The method reads no attribute of [self]. *)
Definition default_num_samples : Z := 1000.

Definition get_interval_from_timebase (timebase num_samples : Z)
  : result float :=
  if timebase <=? 3 then
    p ← py_pow2 (timebase - 1);
    q ← py_truediv p 500e6;
    Ok (q * 1e9)%float
  else
    q ← py_truediv (PyInt (timebase - 3)) 62.5e6;
    Ok (q * 1e9)%float.

(** ** numpy arrays *)

(** A one-dimensional array is the list of its elements. *)
Definition ndarray1 : Type := list float.

(** A two-dimensional array carries its shape, which the rows alone do not
    determine when there are none. *)
Record ndarray2 : Type := {
  shape : nat * nat;
  rows : list (list float)
}.

(** The largest [npy_intp], and the size of an [int64] and of a [float64]
    element. *)
Definition NPY_MAX_INTP : Z := 2 ^ 63 - 1.
Definition itemsize : Z := 8.

(** The check numpy makes of the shape of every new array, with [nbytes]
    the item size to begin with: the dimensions are taken in order, a zero
    is passed over, a negative one is refused
    ([ValueError: negative dimensions are not allowed]) and so is one that
    takes the number of bytes beyond [NPY_MAX_INTP]
    ([ValueError: array is too big], or
    [Maximum allowed dimension exceeded] for a dimension that is no
    [npy_intp]). *)
Fixpoint array_nbytes (nbytes : Z) (dims : list Z) : result Z :=
  match dims with
  | [] => Ok nbytes
  | d :: dims' =>
      if d =? 0 then array_nbytes nbytes dims'
      else if d <? 0 then Raise ValueError
      else if NPY_MAX_INTP <? nbytes * d then Raise ValueError
      else array_nbytes (nbytes * d) dims'
  end.

(** The integers [0 .. n-1]. *)
Definition iota (n : Z) : list Z := Z.of_nat <$> seq 0 (Z.to_nat n).

(** [np.arange] computes the length of the array as a double, [n / 1]
    rounded to nearest, which has to lie between the doubles [-2^63] and
    [2^63]; [n] rounds to a double below [-2^63] exactly when it is below
    [-(2^63 + 2^10)].  A length above [2^63] is refused as well, as every
    length that the shape check refuses. *)
Definition arange_length_min : Z := - (2 ^ 63 + 2 ^ 10).

(** [np.arange(n)]: the integers [0 .. n-1], none when [n <= 0];
    [ValueError: Maximum allowed size exceeded] when the length cannot be
    computed, and the [ValueError] of a shape that is too big. *)
Definition np_arange (n : Z) : result (list Z) :=
  if n <? arange_length_min then Raise ValueError
  else if n <=? 0 then Ok []
  else _ ← array_nbytes itemsize [n]; Ok (iota n).

(** [x * a] and [a * x] for a float [x] and an array [a] of integers or of
    floats: element by element, integers converted to binary64 first. *)
Definition scalar_mul_ints (x : float) (a : list Z) : ndarray1 :=
  (fun i => (x * float_of_Z i)%float) <$> a.

Definition mul_scalar (a : ndarray1) (x : float) : ndarray1 :=
  (fun y => (y * x)%float) <$> a.

(** [np.ones(shape=(r, c))]: [r] rows of [c] ones, when numpy accepts the
    shape. *)
Definition np_ones (r c : Z) : result ndarray2 :=
  _ ← array_nbytes itemsize [r; c];
  Ok {| shape := (Z.to_nat r, Z.to_nat c);
        rows := replicate (Z.to_nat r) (replicate (Z.to_nat c) 1%float) |}.

Definition scalar_mul2 (x : float) (a : ndarray2) : ndarray2 :=
  {| shape := shape a;
     rows := (fun row : list float => (fun y => (x * y)%float) <$> row)
               <$> rows a |}.

(** ** Timers and the object *)

(** What a timer calls.  [DefaultCallback] is [self._callback]; a callback
    passed to [start_run] is known by a number, and all the model records of
    it is that it was called. *)
Inductive callback : Set :=
| DefaultCallback
| UserCallback (h : nat).

(** The arguments of every call: [(ctypes.c_int16(), ctypes.c_int(),
    ctypes.c_void_p())], that is zero, zero and the null pointer. *)
Definition callback_args : Type := Z * Z * option Z.

(** A [threading.Timer]: [interval] and [function] from the constructor,
    [started] the time of [start()], [finished] the object's event, set by
    [cancel()] and by the thread when it is done. *)
Record Timer : Type := {
  interval : nat;
  function : callback;
  args : callback_args;
  started : option nat;
  finished : bool
}.

(** One call of a callback by a timer thread. *)
Record invocation : Type := {
  inv_timer : nat;
  inv_time : nat;
  inv_callback : callback;
  inv_args : callback_args
}.

(** The object.  [_num_samples], [_timebase] and [_num_captures] do not
    exist until [start_run] assigns them.  The dictionaries
    [_input_voltage_ranges], [_input_offsets], [_input_adc_ranges] and
    [_buffers] are created empty and never used again; they are left out.
    [data_is_ready] is the flag of the [Event].  The last three fields are
    the world around the object: the timer objects, the clock and the calls
    made so far. *)
Record FakePicoScope : Type := {
  _channels_enabled : list (string * bool);
  _num_samples : option Z;
  _timebase : option Z;
  _num_captures : option Z;
  data_is_ready : bool;
  _timer : option nat;
  timers : list Timer;
  clock : nat;
  calls : list invocation
}.

(** [__init__] *)
Definition init : FakePicoScope := {|
  _channels_enabled := [("A"%string, true); ("B"%string, true)];
  _num_samples := None;
  _timebase := None;
  _num_captures := None;
  data_is_ready := false;
  _timer := None;
  timers := [];
  clock := 0%nat;
  calls := []
|}.

(** ** The monad of the methods *)

Definition M (A : Type) : Type := FakePicoScope -> result A * FakePicoScope.

#[global] Instance M_ret : MRet M := fun _ a s => (Ok a, s).
#[global] Instance M_bind : MBind M := fun _ _ k m s =>
  match m s with
  | (Ok a, s') => k a s'
  | (Raise e, s') => (Raise e, s')
  end.

Definition raise {A} (e : exn) : M A := fun s => (Raise e, s).
Definition lift {A} (r : result A) : M A := fun s => (r, s).
Definition gets {A} (f : FakePicoScope -> A) : M A := fun s => (Ok (f s), s).
Definition modify (f : FakePicoScope -> FakePicoScope) : M unit :=
  fun s => (Ok tt, f s).

(** Reading an attribute that was never assigned raises [AttributeError]. *)
Definition getattr {A} (f : FakePicoScope -> option A) : M A := fun s =>
  match f s with
  | Some a => (Ok a, s)
  | None => (Raise AttributeError, s)
  end.

Definition set_num_samples (v : Z) (s : FakePicoScope) : FakePicoScope :=
  {| _channels_enabled := _channels_enabled s; _num_samples := Some v;
     _timebase := _timebase s; _num_captures := _num_captures s;
     data_is_ready := data_is_ready s; _timer := _timer s;
     timers := timers s; clock := clock s; calls := calls s |}.

Definition set_timebase (v : Z) (s : FakePicoScope) : FakePicoScope :=
  {| _channels_enabled := _channels_enabled s; _num_samples := _num_samples s;
     _timebase := Some v; _num_captures := _num_captures s;
     data_is_ready := data_is_ready s; _timer := _timer s;
     timers := timers s; clock := clock s; calls := calls s |}.

Definition set_num_captures (v : Z) (s : FakePicoScope) : FakePicoScope :=
  {| _channels_enabled := _channels_enabled s; _num_samples := _num_samples s;
     _timebase := _timebase s; _num_captures := Some v;
     data_is_ready := data_is_ready s; _timer := _timer s;
     timers := timers s; clock := clock s; calls := calls s |}.

Definition set_data_is_ready (v : bool) (s : FakePicoScope) : FakePicoScope :=
  {| _channels_enabled := _channels_enabled s; _num_samples := _num_samples s;
     _timebase := _timebase s; _num_captures := _num_captures s;
     data_is_ready := v; _timer := _timer s;
     timers := timers s; clock := clock s; calls := calls s |}.

Definition set_timer (v : option nat) (s : FakePicoScope) : FakePicoScope :=
  {| _channels_enabled := _channels_enabled s; _num_samples := _num_samples s;
     _timebase := _timebase s; _num_captures := _num_captures s;
     data_is_ready := data_is_ready s; _timer := v;
     timers := timers s; clock := clock s; calls := calls s |}.

Definition set_timers (v : list Timer) (s : FakePicoScope) : FakePicoScope :=
  {| _channels_enabled := _channels_enabled s; _num_samples := _num_samples s;
     _timebase := _timebase s; _num_captures := _num_captures s;
     data_is_ready := data_is_ready s; _timer := _timer s;
     timers := v; clock := clock s; calls := calls s |}.

Definition set_clock (v : nat) (s : FakePicoScope) : FakePicoScope :=
  {| _channels_enabled := _channels_enabled s; _num_samples := _num_samples s;
     _timebase := _timebase s; _num_captures := _num_captures s;
     data_is_ready := data_is_ready s; _timer := _timer s;
     timers := timers s; clock := v; calls := calls s |}.

Definition set_calls (v : list invocation) (s : FakePicoScope)
  : FakePicoScope :=
  {| _channels_enabled := _channels_enabled s; _num_samples := _num_samples s;
     _timebase := _timebase s; _num_captures := _num_captures s;
     data_is_ready := data_is_ready s; _timer := _timer s;
     timers := timers s; clock := clock s; calls := v |}.

(** ** [threading.Timer] *)

(** [Timer(interval, function, args)]: a new object, not started. *)
Definition Timer_new (i : nat) (f : callback) (a : callback_args) : M nat :=
  fun s =>
    (Ok (length (timers s)),
     set_timers (timers s ++ [{| interval := i; function := f; args := a;
                                 started := None; finished := false |}]) s).

Definition mark_started (now : nat) (t : Timer) : Timer :=
  {| interval := interval t; function := function t; args := args t;
     started := Some now; finished := finished t |}.

Definition mark_finished (t : Timer) : Timer :=
  {| interval := interval t; function := function t; args := args t;
     started := started t; finished := true |}.

(** [t.start()]: the thread starts to wait. *)
Definition Timer_start (h : nat) : M unit :=
  modify (fun s => set_timers (alter (mark_started (clock s)) h (timers s)) s).

(** [t.cancel()] sets the timer's [finished] event, whatever its state. *)
Definition Timer_cancel (h : nat) : M unit :=
  modify (fun s => set_timers (alter mark_finished h (timers s)) s).

(** The simulated acquisition time, [Timer(0.5, ...)], in milliseconds. *)
Definition run_delay : nat := 500.

(** ** The methods of [FakePicoScope] *)

(** [set_channel], [close], [set_up_buffers] and [set_trigger] are [pass]. *)
Definition set_channel (channel_name coupling_type : string)
    (range_value offset : pynum) (is_enabled : bool) : M unit :=
  mret tt.

Definition open (serial : option string) (resolution_bits : Z) : M unit :=
  set_channel "A" "DC" (PyInt 1) (PyInt 0) false;;
  set_channel "B" "DC" (PyInt 1) (PyInt 0) false.

Definition close : M unit := mret tt.

Definition set_up_buffers (num_samples num_captures : Z) : M unit := mret tt.

Definition set_trigger (channel_name : string) (threshold : pynum)
    (direction : string) (is_enabled : bool) (delay auto_trigger : pynum)
  : M unit :=
  mret tt.

(** [measure], [measure_adc_values] and [get_adc_data] raise. *)
Definition measure (num_pre_samples num_post_samples timebase
    num_captures : Z) : M (ndarray1 * list (option ndarray2)) :=
  raise NotImplementedError.

Definition measure_adc_values (num_pre_samples num_post_samples timebase
    num_captures : Z) : M (ndarray1 * list (option ndarray2)) :=
  raise NotImplementedError.

Definition get_adc_data : M (ndarray1 * list (option ndarray2)) :=
  raise NotImplementedError.

(** <<
    def _calculate_time_values(self, timebase, num_samples):
        interval = self.get_interval_from_timebase(timebase, num_samples)
        return interval * np.arange(num_samples) * 1e-9
>> *)
Definition _calculate_time_values (timebase num_samples : Z)
  : result ndarray1 :=
  interval ← get_interval_from_timebase timebase num_samples;
  indices ← np_arange num_samples;
  Ok (mul_scalar (scalar_mul_ints interval indices) 1e-9).

(** [d[k]] for a dictionary kept as the list of its items, in insertion
    order. *)
Fixpoint dict_get (d : list (string * bool)) (k : string) : result bool :=
  match d with
  | [] => Raise KeyError
  | (k', v) :: d' => if String.eqb k' k then Ok v else dict_get d' k
  end.

(** The loop of [get_data] over the keys of [self._channels_enabled]; the
    attributes are read when the loop reaches them. *)
Fixpoint get_data_loop (keys : list string)
    (V_data : list (option ndarray2)) : M (list (option ndarray2)) :=
  match keys with
  | [] => mret V_data
  | channel :: keys' =>
      d ← gets _channels_enabled;
      en ← lift (dict_get d channel);
      match en with
      | true =>
          num_captures ← getattr _num_captures;
          num_samples ← getattr _num_samples;
          ones ← lift (np_ones num_captures num_samples);
          get_data_loop keys' (V_data ++ [Some (scalar_mul2 0.3%float ones)])
      | false =>
          get_data_loop keys' (V_data ++ [None])
      end
  end.

(** <<
    def get_data(self):
        time_values = self._calculate_time_values(self._timebase,
                                                  self._num_samples)
        V_data = []
        for channel in self._channels_enabled:
            if self._channels_enabled[channel] is True:
                V_data.append(.3 * np.ones(shape=(self._num_captures,
                                                  self._num_samples)))
            else:
                V_data.append(None)
        return time_values, V_data
>> *)
Definition get_data : M (ndarray1 * list (option ndarray2)) :=
  timebase ← getattr _timebase;
  num_samples ← getattr _num_samples;
  time_values ← lift (_calculate_time_values timebase num_samples);
  d ← gets _channels_enabled;
  V_data ← get_data_loop (d.*1) [];
  mret (time_values, V_data).

(** <<
    def start_run(self, num_pre_samples, num_post_samples, timebase=4,
                  num_captures=1, callback=None):
        self._num_samples = num_pre_samples + num_post_samples
        self._timebase = timebase
        self._num_captures = num_captures
        if callback is None:
            callback = self._callback
        self.data_is_ready.clear()
        self._timer = Timer(0.5, callback, (ctypes.c_int16(), ctypes.c_int(),
                                            ctypes.c_void_p()))
        self._timer.start()
>> *)
Definition start_run (num_pre_samples num_post_samples timebase
    num_captures : Z) (callback : option callback) : M unit :=
  modify (set_num_samples (num_pre_samples + num_post_samples));;
  modify (set_timebase timebase);;
  modify (set_num_captures num_captures);;
  let callback := default DefaultCallback callback in
  modify (set_data_is_ready false);;
  t ← Timer_new run_delay callback (0, 0, None);
  modify (set_timer (Some t));;
  h ← getattr _timer;
  Timer_start h.

(** <<
    def stop(self):
        if self._timer is not None:
            self._timer.cancel()
>> *)
Definition stop : M unit :=
  t ← gets _timer;
  match t with
  | Some h => Timer_cancel h
  | None => mret tt
  end.

(** ** The timer threads *)

(** Modelled from the spec: [callback_factory], imported from the module
    [picoscope_5000a], which builds [self._callback] from
    [self.data_is_ready].  The spec describes it as the default handler
    closing over the object's own completion signal, which turns ready when
    the delay elapses: calling it sets the event.  A callback passed by the
    caller is foreign code; the model records the call and nothing else. *)
Definition invoke (f : callback) (s : FakePicoScope) : FakePicoScope :=
  match f with
  | DefaultCallback => set_data_is_ready true s
  | UserCallback _ => s
  end.

(** When the thread of a started timer wakes up: the nominal time, when
    the interval is over.  The thread of the program wakes up then or
    shortly after. *)
Definition deadline (t : Timer) : option nat :=
  t0 ← started t; Some (t0 + interval t)%nat.

(** A timer that still has to call its function. *)
Definition live (t : Timer) : bool :=
  match started t with
  | Some _ => negb (finished t)
  | None => false
  end.

(** The wait of the timer's thread is over at time [now].  The timer is
    taken to fire as soon as that is so. *)
Definition expired (now : nat) (t : Timer) : bool :=
  match deadline t with
  | Some d => (d <=? now)%nat
  | None => false
  end.

(** The call a timer makes when it fires.  [inv_time] is the nominal time
    of the call, the deadline of the timer: the call is made then or
    shortly after, not before. *)
Definition invocation_of (h : nat) (t : Timer) : invocation :=
  {| inv_timer := h; inv_time := default 0%nat (deadline t);
     inv_callback := function t; inv_args := args t |}.

(** [Timer.run], for the timer [h] of the store:
<<
        self.finished.wait(self.interval)
        if not self.finished.is_set():
            self.function( *self.args, **self.kwargs)
        self.finished.set()
>>
    Nothing happens while the wait lasts.  A cancelled timer calls
    nothing. *)
Definition Timer_run (h : nat) (s : FakePicoScope) : FakePicoScope :=
  match timers s !! h with
  | Some t =>
      if expired (clock s) t then
        let s1 := if finished t then s
                  else invoke (function t)
                         (set_calls (calls s ++ [invocation_of h t]) s) in
        set_timers (alter mark_finished h (timers s1)) s1
      else s
  | None => s
  end.

(** Time passes: the clock moves on by [dt] and every timer that is due by
    then runs, oldest first.  All timers wait for the same [run_delay], so
    the oldest is also the first one due. *)
Definition advance (dt : nat) (s : FakePicoScope) : FakePicoScope :=
  foldl (fun s h => Timer_run h s) (set_clock (clock s + dt) s)
        (seq 0 (length (timers s))).

(** The deadlines of the live timers whose function sets the event. *)
Definition ready_times (s : FakePicoScope) : list nat :=
  omap (fun t => match function t with
                 | DefaultCallback => if live t then deadline t else None
                 | UserCallback _ => None
                 end) (timers s).

(** <<
    def wait_for_data(self):
        self.data_is_ready.wait()
>>
    The caller sleeps until the event is set.  [None] when no live timer
    will ever set it: the call does not return. *)
Definition wait_for_data (s : FakePicoScope) : option FakePicoScope :=
  if data_is_ready s then Some s
  else match ready_times s with
       | [] => None
       | d :: ds => Some (advance (foldr Nat.min d ds - clock s) s)
       end.

(** ** Histories of an object *)

Inductive call : Type :=
| call_open (serial : option string) (resolution_bits : Z)
| call_close
| call_set_channel (channel_name coupling_type : string)
    (range_value offset : pynum) (is_enabled : bool)
| call_measure (num_pre_samples num_post_samples timebase num_captures : Z)
| call_measure_adc_values (num_pre_samples num_post_samples timebase
    num_captures : Z)
| call_set_up_buffers (num_samples num_captures : Z)
| call_get_adc_data
| call_get_data
| call_get_interval_from_timebase (timebase num_samples : Z)
| call_start_run (num_pre_samples num_post_samples timebase
    num_captures : Z) (callback : option callback)
| call_wait_for_data
| call_stop
| call_set_trigger (channel_name : string) (threshold : pynum)
    (direction : string) (is_enabled : bool) (delay auto_trigger : pynum).

(** The object after a call of a public method, whether it returned or
    raised; [None] when the call never returns. *)
Definition after (c : call) (s : FakePicoScope) : option FakePicoScope :=
  match c with
  | call_open serial bits => Some (open serial bits s).2
  | call_close => Some (close s).2
  | call_set_channel n c r o e => Some (set_channel n c r o e s).2
  | call_measure a b t c => Some (measure a b t c s).2
  | call_measure_adc_values a b t c => Some (measure_adc_values a b t c s).2
  | call_set_up_buffers n c => Some (set_up_buffers n c s).2
  | call_get_adc_data => Some (get_adc_data s).2
  | call_get_data => Some (get_data s).2
  | call_get_interval_from_timebase _ _ => Some s
  | call_start_run a b t c cb => Some (start_run a b t c cb s).2
  | call_wait_for_data => wait_for_data s
  | call_stop => Some (stop s).2
  | call_set_trigger n t d e dl a => Some (set_trigger n t d e dl a s).2
  end.

(** The states an object goes through: from [__init__], by calls of public
    methods and by the passing of time. *)
Inductive reachable : FakePicoScope -> Prop :=
| reachable_init : reachable init
| reachable_call c s s' :
    reachable s -> after c s = Some s' -> reachable s'
| reachable_advance dt s :
    reachable s -> reachable (advance dt s).

(** ** What a lapse of time does, timer by timer *)

(** The timer calls its function when time reaches [now]. *)
Definition fires (now : nat) (t : Timer) : bool :=
  expired now t && negb (finished t).

Definition settle (now : nat) (t : Timer) : Timer :=
  if expired now t then mark_finished t else t.

(** The calls made by the timers [l], numbered from [h] on. *)
Fixpoint firings (now : nat) (h : nat) (l : list Timer) : list invocation :=
  match l with
  | [] => []
  | t :: l' =>
      (if fires now t then [invocation_of h t] else []) ++
      firings now (S h) l'
  end.

Definition sets_event (f : callback) : bool :=
  match f with
  | DefaultCallback => true
  | UserCallback _ => false
  end.

(** The attributes [get_data] reads. *)
Definition config (s : FakePicoScope)
  : list (string * bool) * option Z * option Z * option Z :=
  (_channels_enabled s, _num_samples s, _timebase s, _num_captures s).

(** The grid [.3 * np.ones(shape=(r, c))]. *)
Definition placeholder_grid (r c : nat) : ndarray2 :=
  {| shape := (r, c); rows := replicate r (replicate c 0.3%float) |}.

(** What [get_data] returns: the time values for the interval [iv] and
    [n] samples, and one entry per channel of the dictionary [d]. *)
Definition time_values (iv : float) (n : Z) : ndarray1 :=
  mul_scalar (scalar_mul_ints iv (iota n)) 1e-9.

(** Arrays of up to [max_elements] elements, 8 MiB of [float64], are taken
    to be built without the memory running out.  A run of [captures]
    captures of [samples] samples whose arrays are that small: *)
Definition max_elements : Z := 2 ^ 20.

Definition small_run (captures samples : Z) : Prop :=
  0 <= captures <= max_elements /\ 0 <= samples <= max_elements /\
  captures * samples <= max_elements.

Definition channel_data (d : list (string * bool)) (c n : Z)
  : list (option ndarray2) :=
  (fun kv : string * bool =>
     if kv.2 then Some (placeholder_grid (Z.to_nat c) (Z.to_nat n))
     else None) <$> d.

(** What [get_data] does on an object with the two enabled channels of
    [__init__]: the attributes are read, the time values computed and the
    grid built in this order, and the first failure is the outcome. *)
Definition two_channel_data (s : FakePicoScope)
  : result (ndarray1 * list (option ndarray2)) :=
  match _timebase s, _num_samples s with
  | Some t, Some n =>
      match _calculate_time_values t n with
      | Ok times =>
          match _num_captures s with
          | Some c =>
              match np_ones c n with
              | Ok ones => Ok (times, [Some (scalar_mul2 0.3%float ones);
                                       Some (scalar_mul2 0.3%float ones)])
              | Raise e => Raise e
              end
          | None => Raise AttributeError
          end
      | Raise e => Raise e
      end
  | _, _ => Raise AttributeError
  end.

Definition new_timer (f : callback) (now : nat) : Timer :=
  {| interval := run_delay; function := f; args := (0, 0, None);
     started := Some now; finished := false |}.

(** The run of the spec's example, from a new object:
    [start_run(10, 90, timebase=4, num_captures=2)]. *)
Definition example_run : FakePicoScope := (start_run 10 90 4 2 None init).2.

(** Two consecutive time values [x], [y] go up by [step], to within
    [tolerance], in binary64 arithmetic. *)
Definition steps_by (step tolerance : float) (a : ndarray1) : bool :=
  forallb (fun xy : float * float =>
             (xy.1 <? xy.2)%float &&
             (PrimFloat.abs (xy.2 - xy.1 - step) <=? tolerance)%float)
          (zip a (drop 1 a)).

(** A first run with the caller's handler 1, and a second run, with
    handler 2, started 100 ms later, before the first one is over. *)
Definition first_run : FakePicoScope :=
  (start_run 10 90 4 2 (Some (UserCallback 1)) init).2.

Definition second_run : FakePicoScope :=
  (start_run 10 90 4 2 (Some (UserCallback 2)) (advance 100 first_run)).2.

(** The call the timer [h], started at [t0], makes to [f]. *)
Definition completion (h : nat) (f : callback) (t0 : nat) : invocation :=
  {| inv_timer := h; inv_time := (t0 + run_delay)%nat;
     inv_callback := f; inv_args := (0, 0, None) |}.

(** An object with channel B switched off, to see both branches. *)
Definition one_channel_off : FakePicoScope :=
  {| _channels_enabled := [("A"%string, true); ("B"%string, false)];
     _num_samples := None; _timebase := None; _num_captures := None;
     data_is_ready := false; _timer := None; timers := [];
     clock := 0%nat; calls := [] |}.

(** A history with every attempt to switch the channels off. *)
Definition switched_off_history : FakePicoScope :=
  advance 500
    (start_run 10 90 4 2 None
       (set_channel "B" "DC" (PyInt 1) (PyInt 0) false
          (open None 12 init).2).2).2.

(** ** Invariants of the histories *)

(** The calls the timer [k] has made so far. *)
Definition calls_of (k : nat) (s : FakePicoScope) : list invocation :=
  filter (fun i => inv_timer i = k) (calls s).

(** A timer that will set the event when it fires. *)
Definition pending (t : Timer) : bool := sets_event (function t) && live t.

(** The public calls that are no-ops, raise at once, or only read. *)
Definition read_only (c : call) : bool :=
  match c with
  | call_start_run _ _ _ _ _ | call_wait_for_data | call_stop => false
  | _ => true
  end.

(** The object after the calls [cs], one after the other. *)
Fixpoint after_all (cs : list call) (s : FakePicoScope)
  : option FakePicoScope :=
  match cs with
  | [] => Some s
  | c :: cs' => s' ← after c s; after_all cs' s'
  end.

(** The calls that start a run, and their number in a sequence of calls. *)
Definition starts_run (c : call) : bool :=
  match c with
  | call_start_run _ _ _ _ _ => true
  | _ => false
  end.

Fixpoint start_runs (cs : list call) : nat :=
  match cs with
  | [] => 0
  | c :: cs' => ((if starts_run c then 1 else 0) + start_runs cs')%nat
  end.

(** What holds of an object all along its history. *)
Record wf (s : FakePicoScope) : Prop := {
  wf_timers : forall k t, timers s !! k = Some t ->
    interval t = run_delay /\ args t = (0, 0, None) /\
    exists t0, started t = Some t0 /\ (t0 <= clock s)%nat /\
      (finished t = false -> (clock s < t0 + run_delay)%nat);
  wf_calls : forall k,
    calls_of k s = [] \/
    exists t, timers s !! k = Some t /\ finished t = true /\
      expired (clock s) t = true /\ calls_of k s = [invocation_of k t];
  wf_timer :
    match _timer s with
    | None => timers s = [] /\ calls s = [] /\ data_is_ready s = false /\
              _num_samples s = None /\ _timebase s = None /\
              _num_captures s = None
    | Some h => S h = length (timers s) /\ is_Some (_num_samples s) /\
                is_Some (_timebase s) /\ is_Some (_num_captures s)
    end;
  wf_ready : data_is_ready s = true ->
    exists i h t t0, i ∈ calls s /\ inv_callback i = DefaultCallback /\
      _timer s = Some h /\ timers s !! h = Some t /\ started t = Some t0 /\
      (t0 < inv_time i)%nat
}.

(** * Properties *)

(** ** The sampling interval *)

Lemma int_to_float_in_range (z : Z) :
  Z.abs z < float_overflow_bound -> int_to_float z = Ok (float_of_Z z).
Proof.
  intros Hz. unfold int_to_float.
  destruct (Z.ltb_spec (Z.abs z) float_overflow_bound) as [_|Hge];
    [reflexivity | lia].
Qed.

Lemma float_overflow_bound_large : 1074 < float_overflow_bound.
Proof. reflexivity. Qed.

(** The bound is the right one: just below it an integer still rounds to
    the largest binary64 number, at it the rounding leaves the range. *)
Lemma float_overflow_bound_exact :
  float_of_Z (float_overflow_bound - 1) = 0x1.fffffffffffffp+1023%float /\
  float_of_Z float_overflow_bound = infinity.
Proof. split; vm_compute; reflexivity. Qed.

(** The first regime, on the three timebases it has from 1 on. *)
Lemma interval_fast (timebase num_samples : Z) :
  1 <= timebase <= 3 ->
  get_interval_from_timebase timebase num_samples =
    Ok (float_of_Z (2 ^ (timebase - 1)) / 500e6 * 1e9)%float.
Proof.
  intros Ht.
  assert (timebase = 1 \/ timebase = 2 \/ timebase = 3) as [->|[->| ->]]
    by lia; reflexivity.
Qed.

(** The second regime. *)
Lemma interval_slow (timebase num_samples : Z) :
  3 < timebase -> timebase - 3 < float_overflow_bound ->
  get_interval_from_timebase timebase num_samples =
    Ok (float_of_Z (timebase - 3) / 62.5e6 * 1e9)%float.
Proof.
  intros Hlo Hhi. unfold get_interval_from_timebase.
  destruct (Z.leb_spec timebase 3) as [Hle|_]; [lia|].
  unfold py_truediv, to_float.
  rewrite int_to_float_in_range by lia. reflexivity.
Qed.

Lemma interval_ok (timebase num_samples : Z) :
  1 <= timebase -> timebase - 3 < float_overflow_bound ->
  exists x, get_interval_from_timebase timebase num_samples = Ok x.
Proof.
  intros Hlo Hhi. destruct (Z.le_gt_cases timebase 3).
  - eexists. apply interval_fast. lia.
  - eexists. apply interval_slow; lia.
Qed.

(** C2, as stated, fails: the timebase [2^1024 + 3] is an integer, at least
    1, and the call raises [OverflowError] instead of returning
    [(timebase - 3) / 62.5e6 * 1e9]. *)
Lemma get_interval_huge_timebase_raises :
  1 <= 2 ^ 1024 + 3 /\
  get_interval_from_timebase (2 ^ 1024 + 3) default_num_samples =
    Raise OverflowError.
Proof. split; [discriminate | reflexivity]. Qed.

(** C2 (amended): for every integer timebase from 1 on whose offset
    [timebase - 3] converts to a binary64 number (it stays below
    [2^1024 - 2^970]), and any sample count, the call returns
    [2^(timebase-1) / 500e6 * 1e9] when [timebase <= 3] and
    [(timebase - 3) / 62.5e6 * 1e9] when [timebase > 3], evaluated in
    binary64; timebases 1, 2, 3 and 4 give 2.0, 4.0, 8.0 and 16.0. *)
Theorem get_interval_from_timebase_regimes (timebase num_samples : Z) :
  1 <= timebase -> timebase - 3 < float_overflow_bound ->
  get_interval_from_timebase timebase num_samples =
    Ok (if timebase <=? 3
        then (float_of_Z (2 ^ (timebase - 1)) / 500e6 * 1e9)%float
        else (float_of_Z (timebase - 3) / 62.5e6 * 1e9)%float) /\
  get_interval_from_timebase 1 num_samples = Ok 2%float /\
  get_interval_from_timebase 2 num_samples = Ok 4%float /\
  get_interval_from_timebase 3 num_samples = Ok 8%float /\
  get_interval_from_timebase 4 num_samples = Ok 16%float.
Proof.
  intros Hlo Hhi. split; [|repeat split; reflexivity].
  destruct (Z.leb_spec timebase 3).
  - apply interval_fast. lia.
  - apply interval_slow; lia.
Qed.

Lemma get_interval_from_timebase_regimes_witness :
  get_interval_from_timebase 7 250 = Ok 64%float.
Proof.
  refine (proj1 (get_interval_from_timebase_regimes 7 250 _ _));
    [discriminate | reflexivity].
Defined.

(** C3, as stated, fails: timebase 0 is below 1 and the call returns
    1.0 ns. *)
Lemma get_interval_timebase_zero_returns :
  0 < 1 /\ get_interval_from_timebase 0 default_num_samples = Ok 1%float.
Proof. split; reflexivity. Qed.

(** C3 (amended): the method has no check of its timebase.  For every
    integer timebase below 1, down to -1073, so that [2^(timebase-1)] is a
    binary64 number, the call returns the value of the first regime,
    [2^(timebase-1) / 500e6 * 1e9] with the float power [2.0 ** (timebase-1)];
    timebase 0 gives 1.0 and timebase -1 gives 0.5. *)
Theorem get_interval_from_timebase_below_one (timebase num_samples : Z) :
  timebase < 1 -> -1074 <= timebase - 1 ->
  get_interval_from_timebase timebase num_samples =
    Ok (float_of_scaled 1 (timebase - 1) / 500e6 * 1e9)%float /\
  get_interval_from_timebase 0 num_samples = Ok 1%float /\
  get_interval_from_timebase (-1) num_samples = Ok 0.5%float.
Proof.
  intros Hlt Hlo. split; [|split; reflexivity].
  unfold get_interval_from_timebase.
  destruct (Z.leb_spec timebase 3) as [_|Hgt]; [|lia].
  unfold py_pow2.
  destruct (Z.leb_spec 0 (timebase - 1)) as [Hge|_]; [lia|].
  rewrite int_to_float_in_range
    by (pose proof float_overflow_bound_large; lia).
  reflexivity.
Qed.

Lemma get_interval_from_timebase_below_one_witness :
  get_interval_from_timebase (-2) 1000 = Ok 0.25%float.
Proof.
  refine (proj1 (get_interval_from_timebase_below_one (-2) 1000 _ _));
    [reflexivity | discriminate].
Defined.

(** C8, as stated, fails: with a negative sample count the call returns. *)
Lemma get_interval_negative_num_samples_returns :
  1 <= 4 /\ -1 < 0 /\ get_interval_from_timebase 4 (-1) = Ok 16%float.
Proof. split; [lia | split; [lia | reflexivity]]. Qed.

(** C8 (amended): the sample count is not looked at.  For every timebase
    from 1 on (with [timebase - 3] in the binary64 range) the call returns
    for every integer [num_samples], negative ones included, and the
    result is the same for every two sample counts. *)
Theorem get_interval_from_timebase_ignores_num_samples
    (timebase num_samples num_samples' : Z) :
  1 <= timebase -> timebase - 3 < float_overflow_bound ->
  (exists x, get_interval_from_timebase timebase num_samples = Ok x) /\
  get_interval_from_timebase timebase num_samples =
    get_interval_from_timebase timebase num_samples'.
Proof.
  intros Hlo Hhi. split; [apply interval_ok; assumption | reflexivity].
Qed.

Lemma get_interval_from_timebase_ignores_num_samples_witness :
  (exists x, get_interval_from_timebase 4 (-5) = Ok x) /\
  get_interval_from_timebase 4 (-5) = get_interval_from_timebase 4 1000.
Proof.
  apply (get_interval_from_timebase_ignores_num_samples 4 (-5) 1000);
    [discriminate | reflexivity].
Defined.

(** ** The steps of the methods *)

(** [start_run] always returns; this is the object it leaves. *)
Lemma start_run_eq pre post tb caps cb s :
  start_run pre post tb caps cb s =
    (Ok tt,
     {| _channels_enabled := _channels_enabled s;
        _num_samples := Some (pre + post);
        _timebase := Some tb;
        _num_captures := Some caps;
        data_is_ready := false;
        _timer := Some (length (timers s));
        timers := timers s ++ [new_timer (default DefaultCallback cb)
                                         (clock s)];
        clock := clock s;
        calls := calls s |}).
Proof.
  unfold start_run, Timer_start, Timer_new, getattr, mbind, M_bind, modify.
  cbn. f_equal. unfold set_timers; cbn. f_equal.
  rewrite <- (Nat.add_0_r (length (timers s))) at 1.
  rewrite alter_app_r. reflexivity.
Qed.

Lemma stop_eq s :
  stop s = (Ok tt, match _timer s with
                   | Some h => set_timers (alter mark_finished h (timers s)) s
                   | None => s
                   end).
Proof.
  unfold stop, mbind, M_bind, gets. cbn.
  destruct (_timer s); reflexivity.
Qed.

(** One timer thread, when the timer is the first of the [l2] that have
    not run yet. *)
Lemma Timer_run_next s l1 t l2 :
  timers s = l1 ++ t :: l2 ->
  Timer_run (length l1) s =
    {| _channels_enabled := _channels_enabled s;
       _num_samples := _num_samples s;
       _timebase := _timebase s;
       _num_captures := _num_captures s;
       data_is_ready := data_is_ready s ||
                          (fires (clock s) t && sets_event (function t));
       _timer := _timer s;
       timers := l1 ++ settle (clock s) t :: l2;
       clock := clock s;
       calls := calls s ++
                  (if fires (clock s) t then [invocation_of (length l1) t]
                   else []) |}.
Proof.
  intros Ht. unfold Timer_run, fires, settle.
  assert (timers s !! length l1 = Some t) as ->.
  { rewrite Ht, lookup_app_r by lia. rewrite Nat.sub_diag. reflexivity. }
  assert (alter mark_finished (length l1) (l1 ++ t :: l2) =
          l1 ++ mark_finished t :: l2) as Halt.
  { rewrite <- (Nat.add_0_r (length l1)) at 1. rewrite alter_app_r.
    reflexivity. }
  destruct (expired (clock s) t); cbn.
  - destruct (finished t); cbn.
    + unfold set_timers. rewrite Ht, Halt, orb_false_r, app_nil_r.
      reflexivity.
    + destruct (function t); cbn; rewrite Ht, Halt;
        unfold set_timers; cbn; rewrite ?orb_true_r, ?orb_false_r;
        reflexivity.
  - rewrite orb_false_r, app_nil_r, <- Ht. destruct s; reflexivity.
Qed.

(** All the timer threads from [length l1] on, in turn. *)
Lemma run_timers_from l2 : forall s l1,
  timers s = l1 ++ l2 ->
  foldl (fun s h => Timer_run h s) s (seq (length l1) (length l2)) =
    {| _channels_enabled := _channels_enabled s;
       _num_samples := _num_samples s;
       _timebase := _timebase s;
       _num_captures := _num_captures s;
       data_is_ready :=
         data_is_ready s ||
           existsb (fun t => fires (clock s) t && sets_event (function t)) l2;
       _timer := _timer s;
       timers := l1 ++ (settle (clock s) <$> l2);
       clock := clock s;
       calls := calls s ++ firings (clock s) (length l1) l2 |}.
Proof.
  induction l2 as [|t l2 IH]; intros s l1 Ht.
  - rewrite app_nil_r in Ht. subst l1. cbn.
    rewrite orb_false_r, !app_nil_r. destruct s; reflexivity.
  - cbn [length seq foldl]. rewrite (Timer_run_next s l1 t l2 Ht).
    replace (S (length l1)) with (length (l1 ++ [settle (clock s) t]))
      by (rewrite length_app; cbn; lia).
    rewrite IH by (cbn; rewrite <- app_assoc; reflexivity).
    cbn. rewrite <- !app_assoc, length_app, orb_assoc. cbn.
    rewrite Nat.add_1_r. reflexivity.
Qed.

(** What a lapse of time does to the object. *)
Lemma advance_eq dt s :
  advance dt s =
    {| _channels_enabled := _channels_enabled s;
       _num_samples := _num_samples s;
       _timebase := _timebase s;
       _num_captures := _num_captures s;
       data_is_ready :=
         data_is_ready s ||
           existsb (fun t => fires (clock s + dt) t &&
                             sets_event (function t)) (timers s);
       _timer := _timer s;
       timers := settle (clock s + dt) <$> timers s;
       clock := (clock s + dt)%nat;
       calls := calls s ++ firings (clock s + dt) 0 (timers s) |}.
Proof.
  unfold advance.
  apply (run_timers_from (timers s) (set_clock (clock s + dt) s) []).
  reflexivity.
Qed.

Lemma advance_config dt s : config (advance dt s) = config s.
Proof. rewrite advance_eq. reflexivity. Qed.

Lemma start_run_config pre post tb caps cb s :
  config (start_run pre post tb caps cb s).2 =
    (_channels_enabled s, Some (pre + post), Some tb, Some caps).
Proof. rewrite start_run_eq. reflexivity. Qed.

(** ** The data *)

Lemma Ok_inj {A} (a b : A) : Ok a = Ok b -> a = b.
Proof. intros [= ->]. reflexivity. Qed.

Lemma placeholder_value : (0.3 * 1)%float = 0.3%float.
Proof. reflexivity. Qed.

Lemma NPY_MAX_INTP_eq : NPY_MAX_INTP = 9223372036854775807.
Proof. reflexivity. Qed.

Lemma max_elements_eq : max_elements = 1048576.
Proof. reflexivity. Qed.

Lemma arange_length_min_eq : arange_length_min = -9223372036854776832.
Proof. reflexivity. Qed.

(** The shape check raises nothing but [ValueError]. *)
Lemma array_nbytes_raises dims : forall nbytes e,
  array_nbytes nbytes dims = Raise e -> e = ValueError.
Proof.
  induction dims as [|d dims IH]; intros nbytes e; cbn; [discriminate|].
  destruct (d =? 0); [apply IH|].
  destruct (d <? 0); [intros [= <-]; reflexivity|].
  destruct (NPY_MAX_INTP <? nbytes * d); [intros [= <-]; reflexivity|].
  apply IH.
Qed.

(** It passes only shapes without a negative dimension. *)
Lemma array_nbytes_Ok dims : forall nbytes b,
  array_nbytes nbytes dims = Ok b -> Forall (fun d => 0 <= d) dims.
Proof.
  induction dims as [|d dims IH]; intros nbytes b; cbn; [constructor|].
  destruct (Z.eqb_spec d 0) as [->|_].
  - intros Hb. constructor; [lia | exact (IH _ _ Hb)].
  - destruct (Z.ltb_spec d 0) as [|Hd]; [discriminate|].
    destruct (NPY_MAX_INTP <? nbytes * d); [discriminate|].
    intros Hb. constructor; [exact Hd | exact (IH _ _ Hb)].
Qed.

Lemma array_nbytes_small c n :
  small_run c n -> exists b, array_nbytes itemsize [c; n] = Ok b.
Proof.
  unfold small_run. rewrite max_elements_eq. intros (Hc & Hn & Hcn).
  cbn. rewrite NPY_MAX_INTP_eq. unfold itemsize.
  destruct (Z.eqb_spec c 0) as [->|Hc0].
  - destruct (Z.eqb_spec n 0) as [->|Hn0]; [eauto|].
    destruct (Z.ltb_spec n 0); [lia|].
    destruct (Z.ltb_spec 9223372036854775807 (8 * n)); [lia | eauto].
  - destruct (Z.ltb_spec c 0); [lia|].
    destruct (Z.ltb_spec 9223372036854775807 (8 * c)); [lia|].
    destruct (Z.eqb_spec n 0) as [->|Hn0]; [eauto|].
    destruct (Z.ltb_spec n 0); [lia|].
    destruct (Z.ltb_spec 9223372036854775807 (8 * c * n)); [nia | eauto].
Qed.

Lemma np_arange_small n : 0 <= n <= max_elements -> np_arange n = Ok (iota n).
Proof.
  rewrite max_elements_eq. intros Hn. unfold np_arange.
  rewrite arange_length_min_eq.
  destruct (Z.ltb_spec n (-9223372036854776832)); [lia|].
  destruct (Z.leb_spec n 0).
  - replace n with 0 by lia. reflexivity.
  - cbn. rewrite NPY_MAX_INTP_eq. unfold itemsize.
    destruct (Z.eqb_spec n 0); [lia|].
    destruct (Z.ltb_spec n 0); [lia|].
    destruct (Z.ltb_spec 9223372036854775807 (8 * n)); [lia | reflexivity].
Qed.

(** When [np.arange] returns, it returns the integers below [n]. *)
Lemma np_arange_Ok n a : np_arange n = Ok a -> a = iota n.
Proof.
  unfold np_arange. destruct (n <? arange_length_min); [discriminate|].
  destruct (Z.leb_spec n 0).
  - intros [= <-]. unfold iota. replace (Z.to_nat n) with 0%nat by lia.
    reflexivity.
  - destruct (array_nbytes itemsize [n]); cbn; [|discriminate].
    intros [= <-]. reflexivity.
Qed.

Lemma np_arange_raises n e : np_arange n = Raise e -> e = ValueError.
Proof.
  unfold np_arange. destruct (n <? arange_length_min);
    [intros [= <-]; reflexivity|].
  destruct (n <=? 0); [discriminate|].
  destruct (array_nbytes itemsize [n]) eqn:Hb; cbn; [discriminate|].
  intros [= <-]. exact (array_nbytes_raises _ _ _ Hb).
Qed.

Lemma np_ones_Ok r c o :
  np_ones r c = Ok o ->
  0 <= r /\ 0 <= c /\
  o = {| shape := (Z.to_nat r, Z.to_nat c);
         rows := replicate (Z.to_nat r) (replicate (Z.to_nat c) 1%float) |}.
Proof.
  unfold np_ones. destruct (array_nbytes itemsize [r; c]) eqn:Hb; cbn;
    [|discriminate].
  intros [= <-]. apply array_nbytes_Ok in Hb.
  apply Forall_cons in Hb as [Hr Hb]. apply Forall_cons in Hb as [Hc _].
  auto.
Qed.

Lemma np_ones_raises r c e : np_ones r c = Raise e -> e = ValueError.
Proof.
  unfold np_ones. destruct (array_nbytes itemsize [r; c]) eqn:Hb; cbn;
    [discriminate|].
  intros [= <-]. exact (array_nbytes_raises _ _ _ Hb).
Qed.


Lemma scaled_grid (r c : nat) :
  scalar_mul2 0.3%float
    {| shape := (r, c); rows := replicate r (replicate c 1%float) |} =
  placeholder_grid r c.
Proof.
  unfold scalar_mul2, placeholder_grid; cbn.
  rewrite !fmap_replicate, placeholder_value. reflexivity.
Qed.

Lemma scaled_ones c n :
  small_run c n ->
  (ones ← np_ones c n; Ok (scalar_mul2 0.3%float ones)) =
    Ok (placeholder_grid (Z.to_nat c) (Z.to_nat n)).
Proof.
  intros Hs. unfold np_ones.
  destruct (array_nbytes_small c n Hs) as [b ->]. cbn [mbind result_bind].
  rewrite scaled_grid. reflexivity.
Qed.

(** In a dictionary the keys are distinct, and every item is found under
    its key. *)
Lemma dict_get_item d : forall k v,
  NoDup d.*1 -> (k, v) ∈ d -> dict_get d k = Ok v.
Proof.
  induction d as [|[k' v'] d IH]; intros k v Hnd Hin.
  - inversion Hin.
  - cbn in *. apply NoDup_cons in Hnd as [Hk' Hnd].
    apply elem_of_cons in Hin as [Heq|Hin].
    + injection Heq as -> ->. rewrite String.eqb_refl. reflexivity.
    + destruct (String.eqb_spec k' k) as [->|_].
      * exfalso. apply Hk'. apply list_elem_of_fmap. exists (k, v). auto.
      * apply IH; assumption.
Qed.

(** The loop of [get_data] over some of the items of the dictionary. *)
Lemma get_data_loop_eq s c n :
  _num_captures s = Some c -> _num_samples s = Some n ->
  small_run c n -> NoDup (_channels_enabled s).*1 ->
  forall items V_data,
    items ⊆ _channels_enabled s ->
    get_data_loop items.*1 V_data s =
      (Ok (V_data ++ channel_data items c n), s).
Proof.
  intros Hc Hn Hsmall Hnd items.
  induction items as [|[k v] items IH]; intros V_data Hsub.
  - cbn. rewrite app_nil_r. reflexivity.
  - cbn [fmap list_fmap fst get_data_loop].
    unfold mbind at 1, M_bind at 1, gets at 1. cbn [fst].
    unfold mbind at 1, M_bind at 1, lift at 1.
    rewrite (dict_get_item _ k v Hnd) by (apply Hsub; left).
    assert (items ⊆ _channels_enabled s) as Hsub'
      by (intros x Hx; apply Hsub; right; exact Hx).
    destruct v.
    + unfold mbind at 1, M_bind at 1, getattr at 1. rewrite Hc.
      unfold mbind at 1, M_bind at 1, getattr at 1. rewrite Hn.
      unfold mbind at 1, M_bind at 1, lift at 1.
      pose proof (scaled_ones c n Hsmall) as Hones.
      destruct (np_ones c n) as [ones|e]; [|discriminate].
      change (Ok (scalar_mul2 0.3%float ones) =
              Ok (placeholder_grid (Z.to_nat c) (Z.to_nat n))) in Hones.
      apply Ok_inj in Hones.
      change (list_fmap _ _ fst items) with (items.*1).
      rewrite Hones, IH by exact Hsub'.
      rewrite <- app_assoc. reflexivity.
    + change (list_fmap _ _ fst items) with (items.*1).
      rewrite IH by exact Hsub'. rewrite <- app_assoc. reflexivity.
Qed.

(** [get_data] on an object whose run attributes are set: it returns, and
    leaves the object as it was. *)
Lemma get_data_eq s t n c iv :
  _timebase s = Some t -> _num_samples s = Some n ->
  _num_captures s = Some c ->
  small_run c n -> NoDup (_channels_enabled s).*1 ->
  get_interval_from_timebase t n = Ok iv ->
  get_data s =
    (Ok (time_values iv n, channel_data (_channels_enabled s) c n), s).
Proof.
  intros Ht Hn Hc Hsmall Hnd Hiv.
  unfold get_data, mbind at 1, M_bind at 1, getattr at 1. rewrite Ht.
  unfold mbind at 1, M_bind at 1, getattr at 1. rewrite Hn.
  unfold mbind at 1, M_bind at 1, lift at 1, _calculate_time_values.
  rewrite Hiv. cbn [mbind result_bind].
  rewrite np_arange_small by (unfold small_run in Hsmall; tauto).
  cbn [mbind result_bind].
  unfold mbind at 1, M_bind at 1, gets at 1.
  unfold mbind at 1, M_bind at 1.
  rewrite (get_data_loop_eq s c n Hc Hn Hsmall Hnd) by reflexivity.
  reflexivity.
Qed.

(** [get_data] never writes to the object. *)
Lemma get_data_loop_state keys : forall V_data s,
  (get_data_loop keys V_data s).2 = s.
Proof.
  induction keys as [|k keys IH]; intros V_data s; [reflexivity|].
  cbn [get_data_loop]. unfold mbind, M_bind, gets, lift, getattr.
  destruct (dict_get (_channels_enabled s) k) as [[|]|]; try reflexivity.
  - destruct (_num_captures s); [|reflexivity].
    destruct (_num_samples s); [|reflexivity].
    destruct (np_ones _ _); [|reflexivity].
    specialize (IH (V_data ++ [Some (scalar_mul2 0.3%float a)]) s).
    destruct (get_data_loop keys _ s) as [[?|?] ?]; exact IH.
  - specialize (IH (V_data ++ [None]) s).
    destruct (get_data_loop keys _ s) as [[?|?] ?]; exact IH.
Qed.

Lemma get_data_state s : (get_data s).2 = s.
Proof.
  unfold get_data, mbind, M_bind, gets, lift, getattr.
  destruct (_timebase s); [|reflexivity].
  destruct (_num_samples s); [|reflexivity].
  destruct (_calculate_time_values _ _); [|reflexivity].
  pose proof (get_data_loop_state (_channels_enabled s).*1 [] s) as H.
  destruct (get_data_loop _ _ s) as [[?|?] ?]; exact H.
Qed.

Lemma time_values_length iv n : length (time_values iv n) = Z.to_nat n.
Proof.
  unfold time_values, mul_scalar, scalar_mul_ints, iota.
  rewrite !length_fmap, length_seq. reflexivity.
Qed.

Lemma time_values_lookup iv n (i : nat) :
  Z.of_nat i < n ->
  time_values iv n !! i = Some (iv * float_of_Z (Z.of_nat i) * 1e-9)%float.
Proof.
  intros Hi.
  unfold time_values, mul_scalar, scalar_mul_ints, iota, ndarray1.
  rewrite !list_lookup_fmap, lookup_seq_lt by lia. reflexivity.
Qed.

(** The object on which [get_data] is called after a run was started. *)
Lemma get_data_after_start_run s pre post t caps cb dt iv :
  small_run caps (pre + post) -> NoDup (_channels_enabled s).*1 ->
  get_interval_from_timebase t (pre + post) = Ok iv ->
  let s' := advance dt (start_run pre post t caps cb s).2 in
  get_data s' =
    (Ok (time_values iv (pre + post),
         channel_data (_channels_enabled s) caps (pre + post)), s').
Proof.
  intros Hsmall Hnd Hiv s'.
  assert (_channels_enabled s' = _channels_enabled s /\
          _num_samples s' = Some (pre + post) /\
          _timebase s' = Some t /\ _num_captures s' = Some caps)
    as (Hd & Hns & Htb & Hnc)
    by (unfold s'; rewrite advance_eq, start_run_eq; repeat split).
  clearbody s'. rewrite <- Hd. apply get_data_eq with (t := t); try assumption.
  rewrite Hd. exact Hnd.
Qed.

Lemma NoDup_init_channels : NoDup (_channels_enabled init).*1.
Proof.
  cbn. apply NoDup_cons. split.
  - intros Hin. apply list_elem_of_singleton in Hin. discriminate.
  - apply NoDup_singleton.
Qed.

Lemma example_run_waited :
  wait_for_data example_run = Some (advance 500 example_run) /\
  data_is_ready (advance 500 example_run) = true.
Proof. split; reflexivity. Qed.

Lemma small_run_intro c n :
  0 <= c <= 1048576 -> 0 <= n <= 1048576 -> c * n <= 1048576 ->
  small_run c n.
Proof. unfold small_run. rewrite max_elements_eq. auto. Qed.

(** C4, as stated, fails: a run of [2^62] samples with timebase 4 is
    started, and [get_data] returns no sequence of [2^62] time values: it
    raises [ValueError], for numpy refuses an array of that size. *)
Lemma get_data_too_many_samples_raises :
  (start_run (2 ^ 62) 0 4 1 None init).1 = Ok tt /\
  get_data (start_run (2 ^ 62) 0 4 1 None init).2 =
    (Raise ValueError, (start_run (2 ^ 62) 0 4 1 None init).2).
Proof. split; reflexivity. Qed.

(** C4 (amended): after a run started with timebase [t], a timebase that
    has an interval, and [pre + post] samples in all, the arrays of the run
    being small ([small_run]: counts that are not negative and at most
    [max_elements] elements in an array), whatever time has passed since,
    [get_data] returns a sequence of time values whose length is the
    number of samples and whose [i]-th element is [interval * i * 1e-9],
    for the interval of timebase [t], in binary64 arithmetic.  After
    [start_run(10, 90, 4, 2)] on a new object and [wait_for_data()], the
    sequence has 100 elements, starts at 0.0, its [i]-th element is
    [16.0 * i * 1e-9], and each step is 16e-9 to within 1e-21, the
    rounding of binary64. *)
Theorem get_data_time_values s pre post t caps cb dt iv :
  small_run caps (pre + post) -> NoDup (_channels_enabled s).*1 ->
  get_interval_from_timebase t (pre + post) = Ok iv ->
  let s' := advance dt (start_run pre post t caps cb s).2 in
  (exists times V_data,
     get_data s' = (Ok (times, V_data), s') /\
     length times = Z.to_nat (pre + post) /\
     forall i : nat, Z.of_nat i < pre + post ->
       times !! i = Some (iv * float_of_Z (Z.of_nat i) * 1e-9)%float) /\
  (exists s_ready times V_data,
     wait_for_data example_run = Some s_ready /\
     get_data s_ready = (Ok (times, V_data), s_ready) /\
     length times = 100%nat /\
     times !! 0%nat = Some 0%float /\
     (forall i : nat, (i < 100)%nat ->
        times !! i = Some (16 * float_of_Z (Z.of_nat i) * 1e-9)%float) /\
     steps_by 16e-9 1e-21 times = true).
Proof.
  intros Hsmall Hnd Hiv s'. split.
  - eexists _, _. split; [|split].
    + apply get_data_after_start_run; eassumption.
    + apply time_values_length.
    + intros i Hi. apply time_values_lookup. exact Hi.
  - exists (advance 500 example_run), (time_values 16 100),
      (channel_data (_channels_enabled init) 2 100).
    split; [apply example_run_waited|]. split; [|split; [|split; [|split]]].
    + apply (get_data_after_start_run init 10 90 4 2 None 500 16%float);
        [apply small_run_intro; lia | apply NoDup_init_channels
        | reflexivity].
    + apply time_values_length.
    + reflexivity.
    + intros i Hi. apply time_values_lookup. lia.
    + vm_compute. reflexivity.
Qed.

Lemma get_data_time_values_witness :
  exists times V_data,
    get_data (advance 0 example_run) =
      (Ok (times, V_data), advance 0 example_run) /\
    length times = 100%nat /\
    forall i : nat, Z.of_nat i < 10 + 90 ->
      times !! i = Some (16 * float_of_Z (Z.of_nat i) * 1e-9)%float.
Proof.
  refine (proj1 (get_data_time_values init 10 90 4 2 None 0 16%float
                   _ NoDup_init_channels _));
    [apply small_run_intro; lia | reflexivity].
Defined.

(** A placeholder grid has the shape it is given and one value all over. *)
Lemma placeholder_grid_filled (r c : nat) :
  shape (placeholder_grid r c) = (r, c) /\
  length (rows (placeholder_grid r c)) = r /\
  forall row, row ∈ rows (placeholder_grid r c) ->
    length row = c /\ forall x, x ∈ row -> x = 0.3%float.
Proof.
  split; [reflexivity|]. split; [apply length_replicate|].
  intros row Hrow. cbn in Hrow.
  apply elem_of_replicate in Hrow as [-> _].
  split; [apply length_replicate|].
  intros x Hx. apply elem_of_replicate in Hx as [-> _]. reflexivity.
Qed.

Lemma channel_data_lookup (d : list (string * bool)) c n (i : nat)
    (k : string) (en : bool) :
  d !! i = Some (k, en) ->
  channel_data d c n !! i =
    Some (if en then Some (placeholder_grid (Z.to_nat c) (Z.to_nat n))
          else None).
Proof.
  intros Hi. unfold channel_data. rewrite list_lookup_fmap, Hi. reflexivity.
Qed.

(** C5, as stated, fails: after a run with a timebase that has no
    interval [get_data] produces no grid but raises [OverflowError], and
    after a run with [2^62] captures it raises [ValueError], for numpy
    refuses a grid of that size. *)
Lemma get_data_no_grid_for_such_runs :
  get_data (start_run 10 90 (2 ^ 1024 + 3) 2 None init).2 =
    (Raise OverflowError, (start_run 10 90 (2 ^ 1024 + 3) 2 None init).2) /\
  get_data (start_run 10 90 4 (2 ^ 62) None init).2 =
    (Raise ValueError, (start_run 10 90 4 (2 ^ 62) None init).2).
Proof. split; reflexivity. Qed.

(** C5 (amended): after a run with [caps] captures and [pre + post]
    samples, with a timebase that has an interval and arrays that are
    small ([small_run]), [get_data] returns one entry per channel of the
    dictionary, in its order: for an enabled channel a grid of shape
    [(caps, pre + post)] whose every element is the one placeholder value
    0.3, for a disabled channel the absent marker [None]. *)
Theorem get_data_channel_grids s pre post t caps cb dt iv :
  small_run caps (pre + post) -> NoDup (_channels_enabled s).*1 ->
  get_interval_from_timebase t (pre + post) = Ok iv ->
  let s' := advance dt (start_run pre post t caps cb s).2 in
  exists times V_data,
    get_data s' = (Ok (times, V_data), s') /\
    length V_data = length (_channels_enabled s) /\
    forall (i : nat) (channel : string) (enabled : bool),
      _channels_enabled s !! i = Some (channel, enabled) ->
      if enabled then
        exists grid,
          V_data !! i = Some (Some grid) /\
          shape grid = (Z.to_nat caps, Z.to_nat (pre + post)) /\
          length (rows grid) = Z.to_nat caps /\
          forall row, row ∈ rows grid ->
            length row = Z.to_nat (pre + post) /\
            forall x, x ∈ row -> x = 0.3%float
      else V_data !! i = Some None.
Proof.
  intros Hsmall Hnd Hiv s'. eexists _, _. split; [|split].
  - apply get_data_after_start_run; eassumption.
  - unfold channel_data. apply length_fmap.
  - intros i channel enabled Hi.
    pose proof (channel_data_lookup _ caps (pre + post) i _ _ Hi) as Hl.
    destruct enabled; [|exact Hl].
    eexists. split; [exact Hl|]. apply placeholder_grid_filled.
Qed.

Lemma get_data_channel_grids_witness :
  exists times V_data,
    get_data (advance 500 (start_run 2 3 4 2 None one_channel_off).2) =
      (Ok (times, V_data),
       advance 500 (start_run 2 3 4 2 None one_channel_off).2) /\
    V_data = [Some (placeholder_grid 2 5); None].
Proof.
  destruct (get_data_channel_grids one_channel_off 2 3 4 2 None 500 16%float)
    as (times & V_data & Hget & _ & _).
  - apply small_run_intro; lia.
  - cbn. apply NoDup_cons. split.
    + intros Hin. apply list_elem_of_singleton in Hin. discriminate.
    + apply NoDup_singleton.
  - reflexivity.
  - exists times, V_data. split; [exact Hget|].
    vm_compute in Hget. injection Hget as _ <-. reflexivity.
Defined.

(** ** Starting a run *)

(** C6, as stated, fails: the configuration [pre = -1], [post = 0],
    [captures = 0] breaks three of the four preconditions, and [start_run]
    returns and leaves another object. *)
Lemma start_run_accepts_invalid_configuration :
  -1 < 0 /\ -1 + 0 < 1 /\ 0 < 1 /\
  (start_run (-1) 0 4 0 None init).1 = Ok tt /\
  (start_run (-1) 0 4 0 None init).2 <> init.
Proof.
  split; [lia|]. split; [lia|]. split; [lia|]. split; [reflexivity|].
  intros Heq. apply (f_equal _num_captures) in Heq. discriminate.
Qed.

(** C6 (amended): [start_run] checks nothing.  For every configuration,
    whether it meets the preconditions or not, it returns, and it leaves
    the sample count [pre + post], the timebase and the capture count in
    the object, the completion signal cleared, and a new timer started,
    which [self._timer] now refers to. *)
Theorem start_run_always_succeeds s pre post t caps cb :
  exists s',
    start_run pre post t caps cb s = (Ok tt, s') /\
    _num_samples s' = Some (pre + post) /\
    _timebase s' = Some t /\
    _num_captures s' = Some caps /\
    data_is_ready s' = false /\
    _timer s' = Some (length (timers s)) /\
    timers s' =
      timers s ++ [new_timer (default DefaultCallback cb) (clock s)].
Proof.
  eexists. split; [apply start_run_eq|]. repeat split.
Qed.

(** ** The invariant of the channels *)

Lemma after_channels c s s' :
  after c s = Some s' -> _channels_enabled s' = _channels_enabled s.
Proof.
  destruct c; cbn [after]; intros H;
    try (injection H as <-;
         first [ reflexivity
               | rewrite get_data_state; reflexivity
               | rewrite start_run_eq; reflexivity
               | rewrite stop_eq; cbn; destruct (_timer s); reflexivity ]).
  unfold wait_for_data in H.
  destruct (data_is_ready s); [injection H as <-; reflexivity|].
  destruct (ready_times s); [discriminate|].
  injection H as <-. rewrite advance_eq. reflexivity.
Qed.

Lemma reachable_channels s :
  reachable s -> _channels_enabled s = _channels_enabled init.
Proof.
  induction 1 as [|c s s' _ IH Hc|dt s _ IH].
  - reflexivity.
  - rewrite (after_channels c s s' Hc). exact IH.
  - rewrite advance_eq. exact IH.
Qed.

Lemma reachable_NoDup s : reachable s -> NoDup (_channels_enabled s).*1.
Proof.
  intros Hs. rewrite (reachable_channels s Hs). apply NoDup_init_channels.
Qed.

Lemma dict_get_init_A : dict_get (_channels_enabled init) "A" = Ok true.
Proof. reflexivity. Qed.

Lemma dict_get_init_B : dict_get (_channels_enabled init) "B" = Ok true.
Proof. reflexivity. Qed.

(** [get_data] on an object that has the channels of [__init__]. *)
Lemma get_data_two_channels s :
  _channels_enabled s = _channels_enabled init ->
  get_data s = (two_channel_data s, s).
Proof.
  intros Hd. unfold two_channel_data.
  unfold get_data, mbind at 1, M_bind at 1, getattr at 1.
  destruct (_timebase s) as [t|]; [|reflexivity].
  unfold mbind at 1, M_bind at 1, getattr at 1.
  destruct (_num_samples s) as [n|] eqn:Hn; [|reflexivity].
  unfold mbind at 1, M_bind at 1, lift at 1.
  destruct (_calculate_time_values t n) as [times|e]; [|reflexivity].
  unfold mbind at 1, M_bind at 1, gets at 1.
  rewrite Hd. cbn [init _channels_enabled fmap list_fmap fst get_data_loop].
  unfold mbind at 1, M_bind at 1.
  unfold mbind at 1, M_bind at 1, gets at 1. rewrite Hd.
  unfold mbind at 1, M_bind at 1, lift at 1. rewrite dict_get_init_A.
  unfold mbind at 1, M_bind at 1, getattr at 1.
  destruct (_num_captures s) as [c|] eqn:Hc; [|reflexivity].
  unfold mbind at 1, M_bind at 1, getattr at 1. rewrite Hn.
  unfold mbind at 1, M_bind at 1, lift at 1.
  destruct (np_ones c n) as [ones|e] eqn:Hones; [|reflexivity].
  unfold mbind at 1, M_bind at 1, gets at 1. rewrite Hd.
  unfold mbind at 1, M_bind at 1, lift at 1. rewrite dict_get_init_B.
  unfold mbind at 1, M_bind at 1, getattr at 1. rewrite Hc.
  unfold mbind at 1, M_bind at 1, getattr at 1. rewrite Hn.
  unfold mbind at 1, M_bind at 1, lift at 1. rewrite Hones.
  reflexivity.
Qed.

(** When [get_data] returns on such an object, it returns a grid for each
    of the two channels. *)
Lemma get_data_returns_inv s times V_data :
  (get_data s).1 = Ok (times, V_data) ->
  _channels_enabled s = _channels_enabled init ->
  exists r c : nat,
    V_data = [Some (placeholder_grid r c); Some (placeholder_grid r c)].
Proof.
  intros Hr Hd. rewrite (get_data_two_channels s Hd) in Hr. cbn [fst] in Hr.
  unfold two_channel_data in Hr.
  destruct (_timebase s) as [t|]; [|discriminate].
  destruct (_num_samples s) as [n|]; [|discriminate].
  destruct (_calculate_time_values t n) as [tv|]; [|discriminate].
  destruct (_num_captures s) as [c|]; [|discriminate].
  destruct (np_ones c n) as [ones|] eqn:Hones; [|discriminate].
  apply np_ones_Ok in Hones as (_ & _ & ->). rewrite scaled_grid in Hr.
  apply Ok_inj in Hr. injection Hr as _ <-. eexists _, _. reflexivity.
Qed.

(** ** Reading the data in any state *)

(** C7, as stated, fails: a new object is a reachable state, and there
    [get_data] raises [AttributeError], for [self._timebase] does not
    exist before the first [start_run]. *)
Lemma get_data_before_any_run_raises :
  reachable init /\ get_data init = (Raise AttributeError, init).
Proof. split; [constructor | reflexivity]. Qed.

(** C7 (amended): in every reachable state in which a run has been started
    (the attributes [_timebase], [_num_samples], [_num_captures] exist) with
    arrays that are small ([small_run]: counts that are not negative and
    at most [max_elements] elements in an array) and a timebase that has an
    interval,
    [get_data] returns and leaves the object as it was; it does not look at
    the completion signal, nor at the timers or the clock: the result is
    the same whatever the signal says and however much time has passed,
    before or after the data is ready. *)
Theorem get_data_succeeds_after_start s t n c iv :
  reachable s ->
  _timebase s = Some t -> _num_samples s = Some n ->
  _num_captures s = Some c -> small_run c n ->
  get_interval_from_timebase t n = Ok iv ->
  exists r,
    get_data s = (Ok r, s) /\
    (forall ready, get_data (set_data_is_ready ready s) =
                     (Ok r, set_data_is_ready ready s)) /\
    (forall dt, get_data (advance dt s) = (Ok r, advance dt s)).
Proof.
  intros Hs Ht Hn Hc Hsmall Hiv.
  pose proof (reachable_NoDup s Hs) as Hnd.
  eexists. split; [|split].
  - apply get_data_eq with (t := t); eassumption.
  - intros ready.
    apply (get_data_eq (set_data_is_ready ready s) t n c iv); assumption.
  - intros dt.
    assert (_channels_enabled (advance dt s) = _channels_enabled s /\
            _num_samples (advance dt s) = _num_samples s /\
            _timebase (advance dt s) = _timebase s /\
            _num_captures (advance dt s) = _num_captures s)
      as (Hd & Hns & Htb & Hnc) by (rewrite advance_eq; repeat split).
    rewrite <- Hd.
    apply (get_data_eq (advance dt s) t n c iv); congruence.
Qed.

Lemma example_run_reachable : reachable example_run.
Proof.
  apply (reachable_call (call_start_run 10 90 4 2 None) init);
    [constructor | reflexivity].
Qed.

Lemma get_data_succeeds_after_start_witness :
  exists r,
    get_data example_run = (Ok r, example_run) /\
    (forall ready, get_data (set_data_is_ready ready example_run) =
                     (Ok r, set_data_is_ready ready example_run)) /\
    (forall dt, get_data (advance dt example_run) =
                  (Ok r, advance dt example_run)).
Proof.
  apply (get_data_succeeds_after_start example_run 4 100 2 16%float
           example_run_reachable);
    first [reflexivity | apply small_run_intro; lia].
Defined.

(** ** Stopping *)

Lemma alter_mark_finished_twice h (l : list Timer) :
  alter mark_finished h (alter mark_finished h l) = alter mark_finished h l.
Proof.
  rewrite list_alter_alter_eq. apply list_alter_ext; [|reflexivity].
  intros t _. reflexivity.
Qed.

Lemma stop_twice s : (stop (stop s).2).2 = (stop s).2.
Proof.
  rewrite !stop_eq. cbn. destruct (_timer s) as [h|] eqn:Hh; cbn.
  - rewrite Hh. unfold set_timers; cbn.
    rewrite alter_mark_finished_twice. reflexivity.
  - rewrite Hh. reflexivity.
Qed.

(** C9: [stop] never raises and is idempotent.  In every state of the
    object, a new one, one with a capture under way or one whose completion
    signal has fired, the call returns; calling it again, any number of
    times, leaves the object as the first call left it; and the completion
    signal is as it was, so a ready signal stays ready. *)
Theorem stop_never_raises_idempotent s (k : nat) :
  (stop s).1 = Ok tt /\
  Nat.iter k (fun s => (stop s).2) (stop s).2 = (stop s).2 /\
  data_is_ready (stop s).2 = data_is_ready s /\
  (data_is_ready s = true -> data_is_ready (stop s).2 = true).
Proof.
  assert (data_is_ready (stop s).2 = data_is_ready s) as Hready.
  { rewrite stop_eq. cbn. destruct (_timer s); reflexivity. }
  split; [rewrite stop_eq; reflexivity|]. split; [|split].
  - induction k as [|k IH]; [reflexivity|].
    rewrite Nat.iter_succ, IH. apply stop_twice.
  - exact Hready.
  - intros H. rewrite Hready. exact H.
Qed.

Lemma stop_never_raises_idempotent_witness :
  data_is_ready (stop (advance 500 example_run)).2 = true.
Proof.
  apply (stop_never_raises_idempotent (advance 500 example_run) 3).
  reflexivity.
Defined.

(** ** Both channels stay enabled *)

(** C10, as stated, fails: after [open()] and
    [set_channel('B', is_enabled=False)], a sequence of public operations,
    both channels are enabled, yet [get_data] returns no grid for either:
    it raises [AttributeError], no run having been started. *)
Lemma get_data_no_grids_before_run :
  let s := (set_channel "B" "DC" (PyInt 1) (PyInt 0) false
              (open None 12 init).2).2 in
  reachable s /\
  _channels_enabled s = [("A"%string, true); ("B"%string, true)] /\
  get_data s = (Raise AttributeError, s).
Proof.
  split; [|split; reflexivity].
  apply (reachable_call
           (call_set_channel "B" "DC" (PyInt 1) (PyInt 0) false)
           (open None 12 init).2); [|reflexivity].
  apply (reachable_call (call_open None 12) init);
    [constructor | reflexivity].
Qed.

(** C10 (amended): both channels are enabled in a new object and stay so
    in every state the object can reach by calls of its public methods and
    the passing of time; [set_channel] with [is_enabled=False] and [open]
    leave the object as it is.  So whenever [get_data] returns, it returns
    a placeholder grid for channel A and one for channel B, never the
    absent marker; and it does return after every run started with a
    timebase that has an interval and arrays that are small ([small_run]:
    counts that are not negative and at most [max_elements] elements in an
    array). *)
Theorem channels_always_enabled s :
  reachable s ->
  _channels_enabled s = [("A"%string, true); ("B"%string, true)] /\
  (forall name coupling range offset,
     set_channel name coupling range offset false s = (Ok tt, s)) /\
  (forall serial bits, open serial bits s = (Ok tt, s)) /\
  (forall times V_data,
     (get_data s).1 = Ok (times, V_data) ->
     exists r c : nat,
       V_data = [Some (placeholder_grid r c); Some (placeholder_grid r c)]) /\
  (forall pre post t caps cb dt iv,
     small_run caps (pre + post) ->
     get_interval_from_timebase t (pre + post) = Ok iv ->
     exists times,
       (get_data (advance dt (start_run pre post t caps cb s).2)).1 =
         Ok (times,
             [Some (placeholder_grid (Z.to_nat caps) (Z.to_nat (pre + post)));
              Some (placeholder_grid (Z.to_nat caps)
                      (Z.to_nat (pre + post)))])).
Proof.
  intros Hs. pose proof (reachable_channels s Hs) as Hd.
  split; [exact Hd|]. split; [reflexivity|]. split; [reflexivity|]. split.
  - intros times V_data Hr.
    exact (get_data_returns_inv s times V_data Hr Hd).
  - intros pre post t caps cb dt iv Hsmall Hiv.
    rewrite (get_data_after_start_run s pre post t caps cb dt iv)
      by (try assumption; apply reachable_NoDup, Hs).
    rewrite Hd. eexists. reflexivity.
Qed.

Lemma switched_off_history_reachable : reachable switched_off_history.
Proof.
  apply reachable_advance.
  apply (reachable_call (call_start_run 10 90 4 2 None)
           (set_channel "B" "DC" (PyInt 1) (PyInt 0) false
              (open None 12 init).2).2); [|reflexivity].
  apply (reachable_call
           (call_set_channel "B" "DC" (PyInt 1) (PyInt 0) false)
           (open None 12 init).2); [|reflexivity].
  apply (reachable_call (call_open None 12) init);
    [constructor | reflexivity].
Qed.

Lemma channels_always_enabled_witness :
  _channels_enabled switched_off_history =
    [("A"%string, true); ("B"%string, true)].
Proof.
  apply (channels_always_enabled switched_off_history
           switched_off_history_reachable).
Defined.

(** ** A second run before the first one is over *)

(** Among the calls of a lapse of time, those of the timer [k]. *)
Lemma filter_firings now l : forall h k,
  filter (fun i => inv_timer i = k) (firings now h l) =
    match l !! (k - h)%nat with
    | Some t =>
        if (h <=? k)%nat && fires now t then [invocation_of k t] else []
    | None => []
    end.
Proof.
  induction l as [|t l IH]; intros h k; [reflexivity|].
  cbn [firings]. rewrite filter_app, IH.
  destruct (decide (k = h)) as [->|Hne].
  - rewrite Nat.sub_diag. cbn [lookup list_lookup].
    rewrite Nat.leb_refl, andb_true_l.
    destruct (Nat.leb_spec (S h) h) as [Hle|_]; [lia|].
    destruct (l !! (h - S h)%nat); cbn [andb];
      (destruct (fires now t);
       [rewrite filter_cons_True by reflexivity|]; reflexivity).
  - destruct (Nat.leb_spec h k) as [Hle|Hgt].
    + replace (k - h)%nat with (S (k - S h)) by lia.
      cbn [lookup list_lookup].
      destruct (Nat.leb_spec (S h) k) as [_|Hlt]; [|lia].
      destruct (fires now t); [|reflexivity].
      rewrite filter_cons_False by (cbn; lia). reflexivity.
    + replace (k - h)%nat with 0%nat by lia. cbn [lookup list_lookup andb].
      destruct (Nat.leb_spec (S h) k) as [Hle|_]; [lia|].
      destruct (l !! (k - S h)%nat); cbn [andb];
        (destruct (fires now t);
         [rewrite filter_cons_False by (cbn; lia)|]; reflexivity).
Qed.

Lemma fires_new_timer now f t0 :
  fires now (new_timer f t0) = (t0 + run_delay <=? now)%nat.
Proof. unfold fires, expired. cbn. apply andb_true_r. Qed.

Lemma settle_new_timer now f t0 :
  (now < t0 + run_delay)%nat -> settle now (new_timer f t0) = new_timer f t0.
Proof.
  intros Hlt. unfold settle, expired. cbn.
  destruct (Nat.leb_spec (t0 + run_delay) now); [lia | reflexivity].
Qed.

(** The calls of timer [k] over a lapse of time. *)
Lemma advance_calls_of dt s k :
  filter (fun i => inv_timer i = k) (calls (advance dt s)) =
    filter (fun i => inv_timer i = k) (calls s) ++
    match timers s !! k with
    | Some t => if fires (clock s + dt) t then [invocation_of k t] else []
    | None => []
    end.
Proof.
  rewrite advance_eq. cbn [calls]. rewrite filter_app, filter_firings.
  rewrite Nat.sub_0_r. reflexivity.
Qed.

(** C1, as stated, fails: the second [start_run] comes 100 ms after the
    first, before the 500 ms are over; the timer of the first run is as it
    was, not cancelled, and at 500 ms it calls the handler of the first
    run. *)
Lemma superseded_run_handler_fires :
  (clock (advance 100 first_run) < clock init + run_delay)%nat /\
  timers second_run !! 0%nat = Some (new_timer (UserCallback 1) 0) /\
  calls (advance 400 second_run) = [completion 0 (UserCallback 1) 0].
Proof. split; [vm_compute; lia | split; reflexivity]. Qed.

(** C1 (amended): when [start_run] is called a second time before the delay
    of the first run is over, the timer of the first run is left as it is:
    it is still live, [self._timer] refers to the new timer only, and once
    its own delay is over the first timer calls the first run's handler,
    exactly once, at the time the first run was due; a [stop()] after the
    second [start_run] cancels the second timer and does not change
    this. *)
Theorem second_start_run_keeps_first_timer
    s pre1 post1 t1 caps1 cb1 pre2 post2 t2 caps2 cb2 (d dt : nat) :
  (d < run_delay)%nat -> (run_delay <= d + dt)%nat ->
  let s1 := (start_run pre1 post1 t1 caps1 cb1 s).2 in
  let s2 := (start_run pre2 post2 t2 caps2 cb2 (advance d s1)).2 in
  let h1 := length (timers s) in
  let f1 := default DefaultCallback cb1 in
  timers s2 !! h1 = Some (new_timer f1 (clock s)) /\
  _timer s2 = Some (S h1) /\
  filter (fun i => inv_timer i = h1) (calls (advance dt s2)) =
    filter (fun i => inv_timer i = h1) (calls s) ++
    [completion h1 f1 (clock s)] /\
  filter (fun i => inv_timer i = h1) (calls (advance dt (stop s2).2)) =
    filter (fun i => inv_timer i = h1) (calls s) ++
    [completion h1 f1 (clock s)].
Proof.
  intros Hd Hdt s1 s2 h1 f1.
  assert (timers s1 = timers s ++ [new_timer f1 (clock s)] /\
          clock s1 = clock s /\ calls s1 = calls s) as (Ht1 & Hc1 & Hk1).
  { unfold s1. rewrite start_run_eq. repeat split. }
  assert (timers s1 !! h1 = Some (new_timer f1 (clock s))) as Hl1.
  { rewrite Ht1, lookup_app_r by (unfold h1; lia).
    unfold h1. rewrite Nat.sub_diag. reflexivity. }
  set (s1' := advance d s1).
  assert (timers s1' !! h1 = Some (new_timer f1 (clock s)) /\
          length (timers s1') = S h1 /\
          clock s1' = (clock s + d)%nat /\
          filter (fun i => inv_timer i = h1) (calls s1') =
            filter (fun i => inv_timer i = h1) (calls s))
    as (Hl1' & Hlen1' & Hc1' & Hk1').
  { unfold s1'. rewrite advance_calls_of, Hl1, fires_new_timer, Hc1, Hk1.
    destruct (Nat.leb_spec (clock s + run_delay) (clock s + d)); [lia|].
    rewrite app_nil_r. rewrite advance_eq. cbn.
    rewrite list_lookup_fmap, Hl1, length_fmap, Ht1, length_app, Hc1. cbn.
    rewrite settle_new_timer by lia. repeat split. unfold h1. lia. }
  assert (timers s2 = timers s1' ++
            [new_timer (default DefaultCallback cb2) (clock s1')] /\
          _timer s2 = Some (length (timers s1')) /\
          clock s2 = clock s1' /\ calls s2 = calls s1')
    as (Ht2 & Hh2 & Hc2 & Hk2).
  { unfold s2. fold s1'. rewrite start_run_eq. repeat split. }
  assert (timers s2 !! h1 = Some (new_timer f1 (clock s))) as Hl2.
  { rewrite Ht2, lookup_app_l by lia. exact Hl1'. }
  split; [exact Hl2|]. split; [rewrite Hh2, Hlen1'; reflexivity|].
  assert (fires (clock s + d + dt) (new_timer f1 (clock s)) = true) as Hf.
  { rewrite fires_new_timer. apply Nat.leb_le. lia. }
  split.
  - rewrite advance_calls_of, Hl2, Hc2, Hc1', Hf, Hk2, Hk1'. reflexivity.
  - rewrite advance_calls_of, stop_eq, Hh2. cbn.
    rewrite list_lookup_alter_ne by lia.
    rewrite Hl2, Hc2, Hc1', Hf, Hk2, Hk1'. reflexivity.
Qed.

Lemma second_start_run_keeps_first_timer_witness :
  filter (fun i => inv_timer i = 0%nat) (calls (advance 400 second_run)) =
    [completion 0 (UserCallback 1) 0].
Proof.
  refine (proj1 (proj2 (proj2
    (second_start_run_keeps_first_timer init
       10 90 4 2 (Some (UserCallback 1)) 10 90 4 2 (Some (UserCallback 2))
       100 400 _ _)))); vm_compute; lia.
Defined.

(** * Further properties of the methods *)

(** ** The exceptions of the sampling interval *)

Lemma int_to_float_out_of_range (z : Z) :
  float_overflow_bound <= Z.abs z -> int_to_float z = Raise OverflowError.
Proof.
  intros Hz. unfold int_to_float.
  destruct (Z.ltb_spec (Z.abs z) float_overflow_bound) as [Hlt|_];
    [lia | reflexivity].
Qed.

Lemma interval_cases (timebase num_samples : Z) :
  (1 - float_overflow_bound < timebase < float_overflow_bound + 3 /\
   exists x, get_interval_from_timebase timebase num_samples = Ok x) \/
  ((timebase <= 1 - float_overflow_bound \/
    float_overflow_bound + 3 <= timebase) /\
   get_interval_from_timebase timebase num_samples = Raise OverflowError).
Proof.
  pose proof float_overflow_bound_large as HB.
  destruct (Z.le_gt_cases timebase 3) as [Hle|Hgt].
  - destruct (Z.le_gt_cases 1 timebase) as [Hge|Hlt].
    + left. split; [lia|]. eexists. apply interval_fast. lia.
    + unfold get_interval_from_timebase.
      destruct (Z.leb_spec timebase 3) as [_|?]; [|lia].
      unfold py_pow2.
      destruct (Z.leb_spec 0 (timebase - 1)) as [?|_]; [lia|].
      destruct (Z.lt_ge_cases (Z.abs (timebase - 1)) float_overflow_bound)
        as [Hin|Hout].
      * left. split; [lia|]. rewrite int_to_float_in_range by exact Hin.
        eexists. reflexivity.
      * right. split; [lia|].
        rewrite int_to_float_out_of_range by exact Hout. reflexivity.
  - unfold get_interval_from_timebase.
    destruct (Z.leb_spec timebase 3) as [?|_]; [lia|].
    unfold py_truediv, to_float.
    destruct (Z.lt_ge_cases (Z.abs (timebase - 3)) float_overflow_bound)
      as [Hin|Hout].
    + left. split; [lia|]. rewrite int_to_float_in_range by exact Hin.
      eexists. reflexivity.
    + right. split; [lia|].
      rewrite int_to_float_out_of_range by exact Hout. reflexivity.
Qed.

(** X1: [get_interval_from_timebase] returns exactly for the timebases
    strictly between [1 - (2^1024 - 2^970)] and [2^1024 - 2^970 + 3]; for
    every other one it raises [OverflowError], and it raises no other
    exception, whatever the sample count. *)
Theorem get_interval_from_timebase_raises_iff (timebase num_samples : Z) :
  ((exists x, get_interval_from_timebase timebase num_samples = Ok x) <->
   1 - float_overflow_bound < timebase < float_overflow_bound + 3) /\
  (get_interval_from_timebase timebase num_samples = Raise OverflowError <->
   timebase <= 1 - float_overflow_bound \/
   float_overflow_bound + 3 <= timebase) /\
  (forall e, get_interval_from_timebase timebase num_samples = Raise e ->
     e = OverflowError).
Proof.
  destruct (interval_cases timebase num_samples)
    as [[Hin [x Hx]]|[Hout Hr]].
  - rewrite Hx. split; [|split].
    + split; [intros _; exact Hin | intros _; exists x; reflexivity].
    + split; [discriminate | lia].
    + discriminate.
  - rewrite Hr. split; [|split].
    + split; [intros [x Hx]; discriminate | lia].
    + split; [intros _; exact Hout | reflexivity].
    + intros e [= <-]. reflexivity.
Qed.

(** ** The exceptions of [get_data] *)

(** [get_data] when the timebase has no interval: the exception of
    [get_interval_from_timebase] comes through [_calculate_time_values]. *)
Lemma get_data_interval_raises s t n e :
  _timebase s = Some t -> _num_samples s = Some n ->
  get_interval_from_timebase t n = Raise e ->
  get_data s = (Raise e, s).
Proof.
  intros Ht Hn He.
  unfold get_data, mbind at 1, M_bind at 1, getattr at 1. rewrite Ht.
  unfold mbind at 1, M_bind at 1, getattr at 1. rewrite Hn.
  unfold mbind at 1, M_bind at 1, lift at 1, _calculate_time_values.
  rewrite He. reflexivity.
Qed.

(** [_calculate_time_values] raises the [OverflowError] of the interval
    or the [ValueError] of [np.arange], and nothing else. *)
Lemma calculate_time_values_raises t n e :
  _calculate_time_values t n = Raise e ->
  e = OverflowError \/ e = ValueError.
Proof.
  unfold _calculate_time_values.
  destruct (interval_cases t n) as [[_ [iv ->]]|[_ ->]]; cbn [mbind result_bind].
  - destruct (np_arange n) as [a|e'] eqn:Ha; cbn [mbind result_bind];
      [discriminate|].
    intros [= <-]. right. exact (np_arange_raises n e' Ha).
  - intros [= <-]. left. reflexivity.
Qed.


(** The attributes after [start_run] and a lapse of time. *)
Lemma started_config s pre post t caps cb dt :
  let s' := advance dt (start_run pre post t caps cb s).2 in
  _channels_enabled s' = _channels_enabled s /\
  _num_samples s' = Some (pre + post) /\
  _timebase s' = Some t /\ _num_captures s' = Some caps.
Proof.
  intros s'. unfold s'. rewrite advance_eq, start_run_eq. repeat split.
Qed.

(** X2: [start_run] accepts a timebase that has no interval, and the
    failure comes out of the next [get_data]: it raises [OverflowError]
    and leaves the object as it is, however much time has passed. *)
Theorem get_data_reports_timebase_overflow s pre post t caps cb dt :
  t <= 1 - float_overflow_bound \/ float_overflow_bound + 3 <= t ->
  let s' := advance dt (start_run pre post t caps cb s).2 in
  (start_run pre post t caps cb s).1 = Ok tt /\
  get_data s' = (Raise OverflowError, s').
Proof.
  intros Hout s'. split; [rewrite start_run_eq; reflexivity|].
  destruct (started_config s pre post t caps cb dt) as (_ & Hn & Ht & _).
  apply (get_data_interval_raises s' t (pre + post)); try assumption.
  destruct (interval_cases t (pre + post)) as [[Hin _]|[_ Hr]];
    [lia | exact Hr].
Qed.

Lemma get_data_reports_timebase_overflow_witness :
  get_data (advance 500 (start_run 10 90 (2 ^ 1024 + 3) 2 None init).2) =
    (Raise OverflowError,
     advance 500 (start_run 10 90 (2 ^ 1024 + 3) 2 None init).2).
Proof.
  refine (proj2 (get_data_reports_timebase_overflow
                   init 10 90 (2 ^ 1024 + 3) 2 None 500 _)).
  right. vm_compute. discriminate.
Defined.



(** ** The invariant of the histories *)

Lemma invocation_of_mark_finished k t :
  invocation_of k (mark_finished t) = invocation_of k t.
Proof. reflexivity. Qed.

Lemma expired_mark_finished now t :
  expired now (mark_finished t) = expired now t.
Proof. reflexivity. Qed.

Lemma expired_mono now now' t :
  (now <= now')%nat -> expired now t = true -> expired now' t = true.
Proof.
  unfold expired. destruct (deadline t) as [d|]; [|discriminate].
  intros Hle Hd. apply Nat.leb_le in Hd. apply Nat.leb_le. lia.
Qed.

Lemma settle_cases now t :
  (expired now t = false /\ settle now t = t) \/
  (expired now t = true /\ settle now t = mark_finished t).
Proof. unfold settle. destruct (expired now t); auto. Qed.

Lemma calls_of_advance dt s k :
  calls_of k (advance dt s) =
    calls_of k s ++
    match timers s !! k with
    | Some t => if fires (clock s + dt) t then [invocation_of k t] else []
    | None => []
    end.
Proof. apply advance_calls_of. Qed.

Lemma wf_init : wf init.
Proof.
  split.
  - intros k t Hk. destruct k; discriminate.
  - intros k. left. reflexivity.
  - cbn. repeat split.
  - discriminate.
Qed.

Lemma wf_start_run s pre post t caps cb :
  wf s -> wf (start_run pre post t caps cb s).2.
Proof.
  intros [Ht Hc Hh Hr]. rewrite start_run_eq. cbn [snd]. split.
  - intros k t' Hk. cbn in Hk |- *.
    apply lookup_snoc_Some in Hk as [[_ Hk]|[_ <-]].
    + exact (Ht k t' Hk).
    + cbn. split; [reflexivity|]. split; [reflexivity|].
      exists (clock s). split; [reflexivity|]. split; [lia|].
      intros _. unfold run_delay. lia.
  - intros k. unfold calls_of. cbn.
    destruct (Hc k) as [Hnil|(t' & Hk & Hf & He & Hi)]; [left; exact Hnil|].
    right. exists t'. split; [apply lookup_app_l_Some; exact Hk|]. auto.
  - cbn. rewrite length_app. cbn. split; [lia|]. repeat split; eexists;
      reflexivity.
  - cbn. discriminate.
Qed.

Lemma wf_stop s : wf s -> wf (stop s).2.
Proof.
  intros Hwf. rewrite stop_eq. cbn [snd].
  destruct (_timer s) as [h|] eqn:Hh; [|exact Hwf].
  destruct Hwf as [Ht Hc Hti Hr]. split.
  - intros k t' Hk. cbn in Hk |- *. rewrite list_lookup_alter in Hk.
    destruct (decide (h = k)) as [->|Hne]; [|exact (Ht k t' Hk)].
    destruct (timers s !! k) as [t1|] eqn:Hk1; [|discriminate].
    injection Hk as <-. destruct (Ht k t1 Hk1) as (Hi & Ha & t0 & Hs & Hle & _).
    cbn. split; [exact Hi|]. split; [exact Ha|].
    exists t0. split; [exact Hs|]. split; [exact Hle | discriminate].
  - intros k. unfold calls_of. cbn.
    destruct (Hc k) as [Hnil|(t' & Hk & Hf & He & Hi)]; [left; exact Hnil|].
    right. rewrite list_lookup_alter.
    destruct (decide (h = k)) as [->|Hne].
    + exists (mark_finished t'). rewrite Hk. repeat split; assumption.
    + exists t'. repeat split; assumption.
  - cbn. rewrite Hh in Hti |- *. rewrite length_alter. exact Hti.
  - cbn. intros Hrd. destruct (Hr Hrd) as (i & h' & t' & t0 & H1 & H2 & H3 & H4 & H5 & H6).
    rewrite Hh in H3. injection H3 as <-.
    exists i, h, (mark_finished t'), t0. rewrite Hh, list_lookup_alter_eq, H4.
    repeat split; assumption.
Qed.

Lemma wf_advance dt s : wf s -> wf (advance dt s).
Proof.
  intros [Ht Hc Hti Hr]. split.
  - intros k t' Hk. rewrite advance_eq in Hk |- *. cbn in Hk |- *.
    apply list_lookup_fmap_Some in Hk as (t1 & -> & Hk1).
    destruct (Ht k t1 Hk1) as (Hi & Ha & t0 & Hs & Hle & Hlive).
    destruct (settle_cases (clock s + dt) t1) as [[He ->]|[He ->]].
    + split; [exact Hi|]. split; [exact Ha|]. exists t0.
      split; [exact Hs|]. split; [lia|]. intros _.
      unfold expired, deadline in He. rewrite Hs, Hi in He. cbn in He.
      apply Nat.leb_gt in He. exact He.
    + cbn. split; [exact Hi|]. split; [exact Ha|]. exists t0.
      split; [exact Hs|]. split; [lia | discriminate].
  - intros k. rewrite calls_of_advance.
    assert (timers (advance dt s) !! k = settle (clock s + dt) <$> timers s !! k)
      as Hk' by (rewrite advance_eq; cbn; apply list_lookup_fmap).
    assert (clock (advance dt s) = (clock s + dt)%nat) as Hclk
      by (rewrite advance_eq; reflexivity).
    rewrite Hk', Hclk.
    destruct (Hc k) as [Hnil|(t' & Hk & Hf & He & Hi)].
    + rewrite Hnil. destruct (timers s !! k) as [t1|]; [|left; reflexivity].
      destruct (fires (clock s + dt) t1) eqn:Hfire; [|left; reflexivity].
      right. unfold fires in Hfire. apply andb_true_iff in Hfire as [He Hnf].
      exists (mark_finished t1). cbn. unfold settle. rewrite He.
      repeat split; reflexivity || exact He.
    + rewrite Hk, Hi. unfold fires. rewrite Hf, andb_false_r, app_nil_r.
      right. cbn.
      assert (expired (clock s + dt) t' = true) as He'
        by (apply (expired_mono (clock s)); [lia | exact He]).
      exists (mark_finished t'). unfold settle. rewrite He'.
      repeat split; reflexivity || exact He'.
  - rewrite advance_eq. cbn.
    destruct (_timer s) as [h|].
    + rewrite length_fmap. exact Hti.
    + destruct Hti as (-> & -> & -> & H1 & H2 & H3). cbn.
      repeat split; assumption.
  - intros Hrd.
    assert (forall h t0 t', _timer s = Some h -> timers s !! h = Some t' ->
              started t' = Some t0 ->
              _timer (advance dt s) = Some h /\
              exists t'', timers (advance dt s) !! h = Some t'' /\
                          started t'' = Some t0) as Hkeep.
    { intros h t0 t' Hh Hl Hs. rewrite advance_eq. cbn. split; [exact Hh|].
      rewrite list_lookup_fmap, Hl. cbn. eexists. split; [reflexivity|].
      destruct (settle_cases (clock s + dt) t') as [[_ ->]|[_ ->]];
        exact Hs. }
    destruct (data_is_ready s) eqn:Hold.
    + destruct (Hr eq_refl) as (i & h & t' & t0 & H1 & H2 & H3 & H4 & H5 & H6).
      destruct (Hkeep h t0 t' H3 H4 H5) as (Hh' & t'' & Hl' & Hs').
      exists i, h, t'', t0. repeat split; try assumption.
      rewrite advance_eq. cbn. apply elem_of_app. left. exact H1.
    + rewrite advance_eq in Hrd. cbn in Hrd. rewrite Hold in Hrd. cbn in Hrd.
      apply existsb_exists in Hrd as (t1 & Hin & Hfire).
      apply list_elem_of_In, list_elem_of_lookup in Hin as [k Hk].
      apply andb_true_iff in Hfire as [Hfire Hdef].
      destruct (_timer s) as [h|] eqn:Hh;
        [|destruct Hti as (Hnil & _); rewrite Hnil, lookup_nil in Hk;
          discriminate].
      destruct Hti as (Hlen & _).
      assert (is_Some (timers s !! h)) as [t' Hl]
        by (apply lookup_lt_is_Some; lia).
      destruct (Ht h t' Hl) as (_ & _ & t0 & Hs & Hle & _).
      destruct (Hkeep h t0 t' eq_refl Hl Hs) as (Hh' & t'' & Hl' & Hs').
      destruct (Ht k t1 Hk) as (Hi1 & _ & t01 & Hs1 & _ & Hlive1).
      exists (invocation_of k t1), h, t'', t0.
      split; [|split; [|split; [|split; [|split]]]]; try assumption.
      * assert (invocation_of k t1 ∈ calls_of k (advance dt s)) as Hin.
        { rewrite calls_of_advance, Hk, Hfire. apply elem_of_app. right.
          apply list_elem_of_singleton. reflexivity. }
        unfold calls_of in Hin. apply list_elem_of_filter in Hin as [_ Hin].
        exact Hin.
      * cbn. destruct (function t1); [reflexivity | discriminate].
      * unfold fires in Hfire. apply andb_true_iff in Hfire as [_ Hnf].
        apply negb_true_iff in Hnf. specialize (Hlive1 Hnf).
        cbn. unfold deadline. rewrite Hs1, Hi1. cbn. lia.
Qed.

Lemma after_read_only c s : read_only c = true -> after c s = Some s.
Proof.
  destruct c; cbn; intros H; try discriminate; try reflexivity.
  rewrite get_data_state. reflexivity.
Qed.

Lemma wait_for_data_cases s s' :
  wait_for_data s = Some s' -> s' = s \/ exists dt, s' = advance dt s.
Proof.
  unfold wait_for_data. destruct (data_is_ready s); [intros [= <-]; auto|].
  destruct (ready_times s); [discriminate|]. intros [= <-]. eauto.
Qed.

Lemma wf_after c s s' : wf s -> after c s = Some s' -> wf s'.
Proof.
  intros Hwf Hc. destruct (read_only c) eqn:Hro.
  - rewrite after_read_only in Hc by exact Hro. injection Hc as <-. exact Hwf.
  - destruct c; try discriminate; cbn [after] in Hc.
    + apply (inj Some) in Hc. subst s'. apply wf_start_run. exact Hwf.
    + apply wait_for_data_cases in Hc as [->|[dt ->]];
        [exact Hwf | apply wf_advance; exact Hwf].
    + apply (inj Some) in Hc. subst s'. apply wf_stop. exact Hwf.
Qed.

Lemma reachable_wf s : reachable s -> wf s.
Proof.
  induction 1 as [|c s s' _ IH Hc|dt s _ IH].
  - apply wf_init.
  - exact (wf_after c s s' IH Hc).
  - apply wf_advance. exact IH.
Qed.

(** X4: until the first [start_run], [self._timer] is [None], no timer
    exists, no callback has been called, the event is clear and the
    attributes [_num_samples], [_timebase] and [_num_captures] do not
    exist; from the first [start_run] on, [self._timer] refers to the timer
    created last, the one of the latest run, and the three attributes
    exist. *)
Theorem timer_is_latest_run s :
  reachable s ->
  match _timer s with
  | None => timers s = [] /\ calls s = [] /\ data_is_ready s = false /\
            _num_samples s = None /\ _timebase s = None /\
            _num_captures s = None
  | Some h => S h = length (timers s) /\ is_Some (_num_samples s) /\
              is_Some (_timebase s) /\ is_Some (_num_captures s)
  end.
Proof. intros Hs. apply wf_timer. apply reachable_wf. exact Hs. Qed.

Lemma timer_is_latest_run_witness :
  S 1 = length (timers second_run) /\ is_Some (_num_samples second_run) /\
  is_Some (_timebase second_run) /\ is_Some (_num_captures second_run).
Proof.
  apply (timer_is_latest_run second_run).
  apply (reachable_call (call_start_run 10 90 4 2 (Some (UserCallback 2)))
           (advance 100 first_run)); [|reflexivity].
  apply reachable_advance.
  apply (reachable_call (call_start_run 10 90 4 2 (Some (UserCallback 1)))
           init); [constructor | reflexivity].
Defined.

(** X5: in every state the object can reach, [get_data] raises
    [AttributeError] exactly when no run has been started yet; it never
    raises [KeyError] or [NotImplementedError]. *)
Theorem get_data_attribute_error_iff s :
  reachable s ->
  ((get_data s).1 = Raise AttributeError <-> _timer s = None) /\
  (get_data s).1 <> Raise KeyError /\
  (get_data s).1 <> Raise NotImplementedError.
Proof.
  intros Hs. pose proof (wf_timer s (reachable_wf s Hs)) as Hti.
  destruct (_timer s) as [h|].
  - destruct Hti as (_ & [n Hn] & [t Ht] & [c Hc]).
    pose proof (reachable_channels s Hs) as Hd.
    assert (exists r, (get_data s).1 = r /\
              (r = Raise OverflowError \/ r = Raise ValueError \/
               exists v, r = Ok v)) as (r & -> & Hr).
    { rewrite (get_data_two_channels s Hd). unfold two_channel_data.
      rewrite Ht, Hn, Hc. cbn [fst].
      destruct (_calculate_time_values t n) as [tv|e] eqn:Hcalc.
      - destruct (np_ones c n) as [ones|e] eqn:Hones; [eauto 6|].
        apply np_ones_raises in Hones. subst e. eauto.
      - destruct (calculate_time_values_raises t n e Hcalc) as [->| ->];
          eauto. }
    split; [|split].
    + split; [|discriminate].
      intros ->. destruct Hr as [?|[?|[? ?]]]; discriminate.
    + intros ->. destruct Hr as [?|[?|[? ?]]]; discriminate.
    + intros ->. destruct Hr as [?|[?|[? ?]]]; discriminate.
  - destruct Hti as (_ & _ & _ & _ & Ht & _).
    assert ((get_data s).1 = Raise AttributeError) as ->.
    { unfold get_data, mbind at 1, M_bind at 1, getattr at 1. rewrite Ht.
      reflexivity. }
    split; [split; reflexivity | split; discriminate].
Qed.

Lemma get_data_attribute_error_iff_witness :
  (get_data (close init).2).1 = Raise AttributeError.
Proof.
  apply (get_data_attribute_error_iff (close init).2).
  - apply (reachable_call call_close init); [constructor | reflexivity].
  - reflexivity.
Defined.

(** X6: [wait_for_data] called before any [start_run] never returns: the
    event is clear and there is no timer to set it. *)
Theorem wait_for_data_before_any_run_blocks s :
  reachable s -> _timer s = None -> wait_for_data s = None.
Proof.
  intros Hs Hh. pose proof (wf_timer s (reachable_wf s Hs)) as Hti.
  rewrite Hh in Hti. destruct Hti as (Ht & _ & Hr & _).
  unfold wait_for_data, ready_times. rewrite Hr, Ht. reflexivity.
Qed.

Lemma wait_for_data_before_any_run_blocks_witness :
  wait_for_data (stop (open None 12 init).2).2 = None.
Proof.
  apply wait_for_data_before_any_run_blocks; [|reflexivity].
  apply (reachable_call call_stop (open None 12 init).2); [|reflexivity].
  apply (reachable_call (call_open None 12) init);
    [constructor | reflexivity].
Defined.

(** X7: a timer calls its function at most once: in every state the object
    can reach, the calls made so far hold at most one call by each
    timer, that is one per [start_run]. *)
Theorem callback_called_at_most_once s (k : nat) :
  reachable s -> (length (calls_of k s) <= 1)%nat.
Proof.
  intros Hs.
  destruct (wf_calls s (reachable_wf s Hs) k) as [->|(t & _ & _ & _ & ->)];
    cbn; lia.
Qed.

Lemma callback_called_at_most_once_witness :
  (length (calls_of 0 (advance 1000 (advance 400 second_run))) <= 1)%nat.
Proof.
  apply callback_called_at_most_once.
  do 2 apply reachable_advance.
  apply (reachable_call (call_start_run 10 90 4 2 (Some (UserCallback 2)))
           (advance 100 first_run)); [|reflexivity].
  apply reachable_advance.
  apply (reachable_call (call_start_run 10 90 4 2 (Some (UserCallback 1)))
           init); [constructor | reflexivity].
Defined.

(** X8: every call of a callback is made by a timer of the object, with
    the function that timer was given and with the arguments
    [(c_int16(), c_int(), c_void_p())], zero, zero and the null pointer,
    and not before [run_delay] (0.5 s) has passed since the [start_run]
    that created and started the timer. *)
Theorem callback_calls_wellformed s (i : invocation) :
  reachable s -> i ∈ calls s ->
  inv_args i = (0, 0, None) /\
  exists t t0,
    timers s !! inv_timer i = Some t /\
    inv_callback i = function t /\
    started t = Some t0 /\
    (t0 + run_delay <= clock s)%nat.
Proof.
  intros Hs Hi. pose proof (reachable_wf s Hs) as Hwf.
  assert (i ∈ calls_of (inv_timer i) s) as Hin
    by (apply list_elem_of_filter; split; [reflexivity | exact Hi]).
  destruct (wf_calls s Hwf (inv_timer i)) as [Hnil|(t & Hk & Hf & He & Hc)].
  - rewrite Hnil in Hin. inversion Hin.
  - rewrite Hc in Hin. apply list_elem_of_singleton in Hin.
    destruct (wf_timers s Hwf _ t Hk) as (Hiv & Ha & t0 & Hst & _ & _).
    assert (deadline t = Some (t0 + run_delay)%nat) as Hd
      by (unfold deadline; rewrite Hst, Hiv; reflexivity).
    split; [rewrite Hin; exact Ha|].
    exists t, t0. split; [exact Hk|]. split; [rewrite Hin; reflexivity|].
    split; [exact Hst|].
    unfold expired in He. rewrite Hd in He. apply Nat.leb_le in He. exact He.
Qed.

Lemma callback_calls_wellformed_witness :
  inv_args (completion 0 DefaultCallback 0) = (0, 0, None) /\
  exists t t0,
    timers (advance 600 example_run)
      !! inv_timer (completion 0 DefaultCallback 0) = Some t /\
    inv_callback (completion 0 DefaultCallback 0) = function t /\
    started t = Some t0 /\
    (t0 + run_delay <= clock (advance 600 example_run))%nat.
Proof.
  apply (callback_calls_wellformed (advance 600 example_run)).
  - apply reachable_advance. exact example_run_reachable.
  - vm_compute. apply list_elem_of_singleton. reflexivity.
Defined.

(** X9: the event is set by the default callback and by nothing else: in
    every state the object can reach in which [data_is_ready] is set, a
    timer has called the default callback, and it did so after the latest
    [start_run], which had cleared the event. *)
Theorem data_is_ready_set_by_default_callback s :
  reachable s -> data_is_ready s = true ->
  exists i h t t0,
    i ∈ calls s /\ inv_callback i = DefaultCallback /\
    _timer s = Some h /\ timers s !! h = Some t /\ started t = Some t0 /\
    (t0 < inv_time i)%nat.
Proof. intros Hs. apply wf_ready. apply reachable_wf. exact Hs. Qed.

Lemma data_is_ready_set_by_default_callback_witness :
  exists i h t t0,
    i ∈ calls (advance 500 example_run) /\
    inv_callback i = DefaultCallback /\
    _timer (advance 500 example_run) = Some h /\
    timers (advance 500 example_run) !! h = Some t /\
    started t = Some t0 /\ (t0 < inv_time i)%nat.
Proof.
  apply (data_is_ready_set_by_default_callback (advance 500 example_run)).
  - apply reachable_advance. exact example_run_reachable.
  - reflexivity.
Defined.

(** ** Stopping, waiting and starting again *)

Lemma pending_mark_finished t : pending (mark_finished t) = false.
Proof.
  unfold pending, live. cbn. destruct (started t); apply andb_false_r.
Qed.

Lemma pending_settle now t : pending t = false -> pending (settle now t) = false.
Proof.
  intros Hp. destruct (settle_cases now t) as [[_ ->]|[_ ->]];
    [exact Hp | apply pending_mark_finished].
Qed.

Lemma pending_new_timer f t0 : pending (new_timer f t0) = sets_event f.
Proof. unfold pending, live. cbn. apply andb_true_r. Qed.

Lemma pending_fires now t :
  fires now t && sets_event (function t) = true -> pending t = true.
Proof.
  unfold pending, live, fires, expired, deadline.
  destruct (started t) as [t0|]; cbn; [|discriminate].
  intros H. apply andb_true_iff in H as [H1 H2].
  apply andb_true_iff in H1 as [_ H1]. rewrite H1, H2. reflexivity.
Qed.

Lemma ready_time_of_pending t :
  match function t with
  | DefaultCallback => if live t then deadline t else None
  | UserCallback _ => None
  end = if pending t then deadline t else None.
Proof. unfold pending. destruct (function t), (live t); reflexivity. Qed.

Lemma deadline_of_pending t : pending t = true -> is_Some (deadline t).
Proof.
  unfold pending, live, deadline. destruct (started t); cbn; [eauto|].
  rewrite andb_false_r. discriminate.
Qed.

Lemma ready_times_nil s :
  ready_times s = [] <-> Forall (fun t => pending t = false) (timers s).
Proof.
  unfold ready_times. induction (timers s) as [|t l IH]; cbn.
  - split; [constructor | reflexivity].
  - rewrite ready_time_of_pending. destruct (pending t) eqn:Hp.
    + destruct (deadline_of_pending t Hp) as [d ->]. split; [discriminate|].
      intros H. apply Forall_cons in H as [H _]. congruence.
    + rewrite IH. split; [intros H; constructor; [exact Hp | exact H]|].
      intros H. apply Forall_cons in H as [_ H]. exact H.
Qed.

Lemma elem_of_ready_times s (m : nat) :
  m ∈ ready_times s ->
  exists t, t ∈ timers s /\ pending t = true /\ deadline t = Some m.
Proof.
  unfold ready_times. intros H. apply list_elem_of_omap in H as (t & Hin & Hm).
  rewrite ready_time_of_pending in Hm. exists t.
  destruct (pending t); [auto | discriminate].
Qed.

Lemma existsb_not_pending now l :
  Forall (fun t => pending t = false) l ->
  existsb (fun t => fires now t && sets_event (function t)) l = false.
Proof.
  induction 1 as [|t l Hp _ IH]; [reflexivity|]. cbn. rewrite IH, orb_false_r.
  destruct (fires now t && sets_event (function t)) eqn:Hf; [|reflexivity].
  apply pending_fires in Hf. congruence.
Qed.

Lemma ready_times_start_run s pre post t caps cb :
  ready_times (start_run pre post t caps cb s).2 =
    ready_times s ++
    (if sets_event (default DefaultCallback cb)
     then [(clock s + run_delay)%nat] else []).
Proof.
  rewrite start_run_eq. unfold ready_times. cbn [snd timers].
  rewrite omap_app. f_equal. cbn.
  destruct (default DefaultCallback cb); reflexivity.
Qed.

Lemma foldr_min_spec (d : nat) ds :
  foldr Nat.min d ds ∈ d :: ds /\
  forall y, y ∈ d :: ds -> (foldr Nat.min d ds <= y)%nat.
Proof.
  induction ds as [|x ds [IHin IHle]]; cbn.
  - split; [left|]. intros y Hy. apply list_elem_of_singleton in Hy. lia.
  - split.
    + destruct (Nat.min_spec x (foldr Nat.min d ds)) as [[_ ->]|[_ ->]].
      * right. left.
      * apply elem_of_cons in IHin as [->|Hin]; [left | right; right; exact Hin].
    + intros y Hy.
      assert (y = x \/ y ∈ d :: ds) as [->|Hy'].
      { apply elem_of_cons in Hy as [->|Hy]; [right; left|].
        apply elem_of_cons in Hy as [->|Hy]; [left; reflexivity|].
        right. right. exact Hy. }
      * lia.
      * specialize (IHle y Hy'). lia.
Qed.

(** When the event is clear and some timer is going to set it,
    [wait_for_data] returns when the first of them fires. *)
Lemma wait_for_data_fires s d ds :
  data_is_ready s = false -> ready_times s = d :: ds ->
  let s' := advance (foldr Nat.min d ds - clock s) s in
  wait_for_data s = Some s' /\ data_is_ready s' = true /\
  forall y, y ∈ ready_times s -> (clock s' <= Nat.max (clock s) y)%nat.
Proof.
  intros Hr Hd s'. destruct (foldr_min_spec d ds) as [Hin Hle].
  set (m := foldr Nat.min d ds) in *. split; [|split].
  - unfold wait_for_data. rewrite Hr, Hd. reflexivity.
  - unfold s'. rewrite advance_eq. cbn. rewrite Hr. cbn.
    rewrite <- Hd in Hin.
    apply elem_of_ready_times in Hin as (t & Ht & Hp & Hm).
    apply existsb_exists. exists t. split; [apply list_elem_of_In; exact Ht|].
    unfold pending, live in Hp. apply andb_true_iff in Hp as [Hse Hl].
    unfold fires, expired. rewrite Hm, Hse.
    destruct (started t); [|discriminate]. rewrite Hl.
    rewrite !andb_true_r. apply Nat.leb_le. lia.
  - intros y Hy. rewrite Hd in Hy. specialize (Hle y Hy).
    unfold s'. rewrite advance_eq. cbn. lia.
Qed.

(** A finished timer calls nothing any more. *)
Lemma finished_timer_silent s k t dt :
  timers s !! k = Some t -> finished t = true ->
  calls_of k (advance dt s) = calls_of k s.
Proof.
  intros Hk Hf. rewrite calls_of_advance, Hk. unfold fires.
  rewrite Hf, andb_false_r. apply app_nil_r.
Qed.

(** The object after a run was started and stopped before it was over. *)
Lemma stopped_run s pre post t caps cb (d : nat) :
  ready_times s = [] -> (d < run_delay)%nat ->
  let s2 := (stop (advance d (start_run pre post t caps cb s).2)).2 in
  ready_times s2 = [] /\ data_is_ready s2 = false /\
  clock s2 = (clock s + d)%nat /\
  calls_of (length (timers s)) s2 = calls_of (length (timers s)) s /\
  exists t1, timers s2 !! length (timers s) = Some t1 /\ finished t1 = true.
Proof.
  intros Hnil Hd. apply ready_times_nil in Hnil.
  set (h := length (timers s)).
  set (new := new_timer (default DefaultCallback cb) (clock s)).
  set (s1 := (start_run pre post t caps cb s).2).
  assert (timers s1 = timers s ++ [new] /\ clock s1 = clock s /\
          calls s1 = calls s /\ data_is_ready s1 = false /\
          _timer s1 = Some h) as (Ht1 & Hc1 & Hk1 & Hr1 & Hh1)
    by (unfold s1; rewrite start_run_eq; repeat split).
  clearbody s1.
  assert (fires (clock s + d) new = false) as Hnf
    by (unfold new; rewrite fires_new_timer; apply Nat.leb_gt; lia).
  assert (timers s1 !! h = Some new) as Hl1.
  { rewrite Ht1, lookup_app_r by (unfold h; lia).
    unfold h. rewrite Nat.sub_diag. reflexivity. }
  set (s1' := advance d s1).
  assert (timers s1' = settle (clock s + d) <$> timers s1 /\
          clock s1' = (clock s + d)%nat /\
          data_is_ready s1' = false /\ _timer s1' = Some h /\
          calls_of h s1' = calls_of h s) as (Ht1' & Hc1' & Hr1' & Hh1' & Hk1').
  { split; [|split; [|split; [|split]]].
    - unfold s1'. rewrite advance_eq, Hc1. reflexivity.
    - unfold s1'. rewrite advance_eq, Hc1. reflexivity.
    - unfold s1'. rewrite advance_eq. cbn [data_is_ready].
      rewrite Hr1, Hc1, Ht1, existsb_app, existsb_not_pending by exact Hnil.
      cbn. rewrite Hnf. reflexivity.
    - unfold s1'. rewrite advance_eq. exact Hh1.
    - unfold s1'. rewrite calls_of_advance, Hl1, Hc1, Hnf, app_nil_r.
      unfold calls_of. rewrite Hk1. reflexivity. }
  clearbody s1'. intros s2.
  assert (timers s2 = alter mark_finished h (timers s1') /\
          clock s2 = clock s1' /\ calls s2 = calls s1' /\
          data_is_ready s2 = data_is_ready s1') as (Ht2 & Hc2 & Hk2 & Hr2)
    by (unfold s2; rewrite stop_eq, Hh1'; repeat split).
  clearbody s2.
  split; [|split; [|split; [|split]]].
  - apply ready_times_nil. rewrite Ht2, Ht1', Ht1.
    apply Forall_lookup. intros k t' Hk. rewrite list_lookup_alter in Hk.
    destruct (decide (h = k)) as [<-|Hne].
    + destruct (_ !! _) in Hk; [|discriminate]. injection Hk as <-.
      apply pending_mark_finished.
    + apply list_lookup_fmap_Some in Hk as (t1 & -> & Hk).
      apply pending_settle.
      apply lookup_snoc_Some in Hk as [[_ Hk]|[Hk _]];
        [|unfold h in Hne; congruence].
      rewrite Forall_lookup in Hnil. exact (Hnil k t1 Hk).
  - rewrite Hr2. exact Hr1'.
  - rewrite Hc2. exact Hc1'.
  - unfold calls_of at 1. rewrite Hk2. exact Hk1'.
  - rewrite Ht2, list_lookup_alter_eq, Ht1', list_lookup_fmap, Hl1. cbn.
    eexists. split; reflexivity.
Qed.



(** X11: when a run is stopped before its delay is over, and no earlier run
    with the default callback is still under way, [wait_for_data] never
    returns: [stop] does not set the event and the cancelled timer never
    will. *)
Theorem wait_for_data_after_stop_blocks s pre post t caps cb (d : nat) :
  ready_times s = [] -> (d < run_delay)%nat ->
  wait_for_data (stop (advance d (start_run pre post t caps cb s).2)).2 = None.
Proof.
  intros Hnil Hd.
  destruct (stopped_run s pre post t caps cb d Hnil Hd) as (Hrt & Hr & _).
  unfold wait_for_data. rewrite Hr, Hrt. reflexivity.
Qed.

Lemma wait_for_data_after_stop_blocks_witness :
  wait_for_data (stop (advance 499 (start_run 10 90 4 2 None init).2)).2 =
    None.
Proof.
  apply wait_for_data_after_stop_blocks; [reflexivity | unfold run_delay; lia].
Defined.

(** X12: after [start_run] with the default callback, in any state,
    [wait_for_data] returns, and the event is set when it does; when no
    earlier run with the default callback is still under way, it does not
    return before [run_delay] (0.5 s) has passed since the [start_run]. *)
Theorem wait_for_data_returns_after_start_run s pre post t caps :
  let s1 := (start_run pre post t caps None s).2 in
  exists s',
    wait_for_data s1 = Some s' /\ data_is_ready s' = true /\
    (ready_times s = [] -> (clock s + run_delay <= clock s')%nat).
Proof.
  intros s1.
  assert (data_is_ready s1 = false /\ clock s1 = clock s) as [Hr Hc]
    by (unfold s1; rewrite start_run_eq; split; reflexivity).
  pose proof (ready_times_start_run s pre post t caps None) as Hrt.
  fold s1 in Hrt. cbn [default sets_event] in Hrt. clearbody s1.
  destruct (ready_times s1) as [|d ds] eqn:Hd.
  { symmetry in Hrt. apply app_eq_nil in Hrt as [_ Hrt]. discriminate. }
  destruct (wait_for_data_fires s1 d ds Hr Hd) as (Hw & Hready & _).
  eexists. split; [exact Hw|]. split; [exact Hready|].
  intros Hnil. rewrite Hnil in Hrt. cbn [app] in Hrt.
  injection Hrt as -> ->. cbn [foldr]. rewrite advance_eq. cbn [clock].
  rewrite Hc. lia.
Qed.

Lemma wait_for_data_returns_after_start_run_witness :
  exists s',
    wait_for_data example_run = Some s' /\ data_is_ready s' = true /\
    (ready_times init = [] -> (clock init + run_delay <= clock s')%nat).
Proof. apply (wait_for_data_returns_after_start_run init 10 90 4 2). Defined.

(** X13: a run started with a callback of the caller never sets the event:
    the timer calls that callback, once the delay is over, and not the
    default one.  When no earlier run with the default callback is under
    way, [data_is_ready] stays clear however much time passes and
    [wait_for_data] never returns (the model takes the caller's callback
    to leave the event alone). *)
Theorem caller_callback_leaves_event_clear s pre post t caps (u dt : nat) :
  ready_times s = [] ->
  let s1 := (start_run pre post t caps (Some (UserCallback u)) s).2 in
  let h := length (timers s) in
  wait_for_data s1 = None /\
  data_is_ready (advance dt s1) = false /\
  ((run_delay <= dt)%nat ->
   calls_of h (advance dt s1) =
     calls_of h s ++ [completion h (UserCallback u) (clock s)]).
Proof.
  intros Hnil s1 h.
  pose proof (ready_times_start_run s pre post t caps (Some (UserCallback u)))
    as Hrt. fold s1 in Hrt. cbn in Hrt. rewrite Hnil in Hrt.
  apply ready_times_nil in Hnil.
  split; [|split].
  - unfold wait_for_data. rewrite Hrt. unfold s1. rewrite start_run_eq.
    reflexivity.
  - unfold s1. rewrite advance_eq, start_run_eq. cbn.
    rewrite existsb_app, existsb_not_pending by exact Hnil. cbn.
    rewrite andb_false_r. reflexivity.
  - intros Hdt. unfold s1. rewrite calls_of_advance, start_run_eq.
    cbn [snd timers clock]. unfold h.
    rewrite lookup_app_r, Nat.sub_diag by lia. cbn [lookup list_lookup].
    rewrite fires_new_timer.
    destruct (Nat.leb_spec (clock s + run_delay) (clock s + dt)); [|lia].
    reflexivity.
Qed.

Lemma caller_callback_leaves_event_clear_witness :
  wait_for_data first_run = None /\
  data_is_ready (advance 500 first_run) = false /\
  ((run_delay <= 500)%nat ->
   calls_of 0 (advance 500 first_run) =
     calls_of 0 init ++ [completion 0 (UserCallback 1) (clock init)]).
Proof.
  apply (caller_callback_leaves_event_clear init 10 90 4 2 1 500).
  reflexivity.
Defined.

(** A run started with the default callback while no other such run is
    under way. *)
Lemma start_run_on_quiet s pre post t caps :
  ready_times s = [] ->
  let s1 := (start_run pre post t caps None s).2 in
  wait_for_data s1 = Some (advance run_delay s1) /\
  data_is_ready (advance run_delay s1) = true /\
  clock (advance run_delay s1) = (clock s + run_delay)%nat /\
  forall k t' dt, timers s !! k = Some t' -> finished t' = true ->
    calls_of k (advance dt s1) = calls_of k s.
Proof.
  intros Hnil s1.
  assert (data_is_ready s1 = false /\ clock s1 = clock s /\
          calls s1 = calls s /\
          timers s1 = timers s ++ [new_timer DefaultCallback (clock s)])
    as (Hr1 & Hc1 & Hk1 & Ht1)
    by (unfold s1; rewrite start_run_eq; repeat split).
  pose proof (ready_times_start_run s pre post t caps None) as Hrt1.
  fold s1 in Hrt1. rewrite Hnil in Hrt1. cbn [default sets_event app] in Hrt1.
  clearbody s1.
  destruct (wait_for_data_fires s1 _ [] Hr1 Hrt1) as (Hw & Hready & _).
  cbn [foldr] in Hw, Hready. rewrite Hc1 in Hw, Hready.
  replace (clock s + run_delay - clock s)%nat with run_delay in Hw, Hready
    by lia.
  split; [exact Hw|]. split; [exact Hready|]. split.
  - rewrite advance_eq. cbn [clock]. lia.
  - intros k t' dt Hl Hf.
    assert (timers s1 !! k = Some t') as Hl1
      by (rewrite Ht1; apply lookup_app_l_Some; exact Hl).
    rewrite (finished_timer_silent s1 k t' dt Hl1 Hf).
    unfold calls_of. rewrite Hk1. reflexivity.
Qed.

(** X14: [stop()] followed by [start_run] does replace a run: when the
    first run is stopped before its delay is over and a second one is
    started with the default callback, the first timer never calls its
    function, and [wait_for_data] returns, with the event set and not
    before [run_delay] has passed since the second [start_run] (no earlier
    run with the default callback being under way). *)
Theorem stop_then_start_run_replaces_run
    s pre1 post1 t1 caps1 cb1 pre2 post2 t2 caps2 (d : nat) :
  ready_times s = [] -> (d < run_delay)%nat ->
  let s2 := (stop (advance d (start_run pre1 post1 t1 caps1 cb1 s).2)).2 in
  let s3 := (start_run pre2 post2 t2 caps2 None s2).2 in
  (exists s',
     wait_for_data s3 = Some s' /\ data_is_ready s' = true /\
     (clock s + d + run_delay <= clock s')%nat) /\
  forall dt,
    calls_of (length (timers s)) (advance dt s3) =
      calls_of (length (timers s)) s.
Proof.
  intros Hnil Hd s2.
  destruct (stopped_run s pre1 post1 t1 caps1 cb1 d Hnil Hd)
    as (Hrt2 & Hr2 & Hc2 & Hk2 & t' & Hl2 & Hf2).
  fold s2 in Hrt2, Hr2, Hc2, Hk2, Hl2. clearbody s2. intros s3.
  destruct (start_run_on_quiet s2 pre2 post2 t2 caps2 Hrt2)
    as (Hw & Hready & Hc3 & Hk3).
  fold s3 in Hw, Hready, Hc3, Hk3. clearbody s3. split.
  - exists (advance run_delay s3).
    split; [exact Hw|]. split; [exact Hready|]. rewrite Hc3, Hc2. lia.
  - intros dt. rewrite (Hk3 _ t' dt Hl2 Hf2). exact Hk2.
Qed.

Lemma stop_then_start_run_replaces_run_witness :
  exists s',
    wait_for_data
      (start_run 1 2 4 1 None
         (stop (advance 100 (start_run 10 90 4 2 None init).2)).2).2 =
      Some s' /\
    data_is_ready s' = true /\
    (clock init + 100 + run_delay <= clock s')%nat.
Proof.
  refine (proj1 (stop_then_start_run_replaces_run
                   init 10 90 4 2 None 1 2 4 1 100 _ _));
    [reflexivity | unfold run_delay; lia].
Defined.

(** ** The calls that change nothing *)

(** X15: [open], [close], [set_channel], [set_up_buffers], [set_trigger],
    [get_interval_from_timebase], [get_data], and the three methods that
    are not implemented leave the object as it is, in any number and any
    order and whether they return or raise; [measure],
    [measure_adc_values] and [get_adc_data] raise [NotImplementedError]
    whatever their arguments and the state of the object. *)
Theorem read_only_calls_leave_object cs s :
  forallb read_only cs = true ->
  after_all cs s = Some s /\
  (forall a b t c, measure a b t c s = (Raise NotImplementedError, s)) /\
  (forall a b t c,
     measure_adc_values a b t c s = (Raise NotImplementedError, s)) /\
  get_adc_data s = (Raise NotImplementedError, s).
Proof.
  intros Hro. split; [|repeat split].
  induction cs as [|c cs IH]; [reflexivity|].
  cbn in Hro. apply andb_true_iff in Hro as [Hc Hcs].
  cbn. rewrite (after_read_only c s Hc). cbn. exact (IH Hcs).
Qed.

Lemma read_only_calls_leave_object_witness :
  after_all [call_open None 12;
             call_set_channel "A" "DC" (PyInt 1) (PyInt 0) false;
             call_set_trigger "A" (PyFloat 0) "RISING" true (PyInt 0)
               (PyInt 0);
             call_set_up_buffers 100 2;
             call_measure 10 90 4 2;
             call_get_adc_data;
             call_get_data;
             call_close] example_run = Some example_run.
Proof.
  refine (proj1 (read_only_calls_leave_object _ example_run _)).
  reflexivity.
Defined.

(** ** The event and the timers over a sequence of calls *)

Lemma after_timers_length c s s' :
  after c s = Some s' ->
  length (timers s') =
    (length (timers s) + (if starts_run c then 1 else 0))%nat.
Proof.
  intros Hc. destruct (read_only c) eqn:Hro.
  - rewrite after_read_only in Hc by exact Hro. injection Hc as <-.
    destruct c; try discriminate; cbn; lia.
  - destruct c; try discriminate; cbn [after] in Hc; cbn [starts_run].
    + apply (inj Some) in Hc. subst s'. rewrite start_run_eq. cbn.
      rewrite length_app. reflexivity.
    + apply wait_for_data_cases in Hc as [->|[dt ->]]; [lia|].
      rewrite advance_eq. cbn. rewrite length_fmap. lia.
    + apply (inj Some) in Hc. subst s'. rewrite stop_eq. cbn.
      destruct (_timer s); cbn; rewrite ?length_alter; lia.
Qed.

(** X16: every [start_run] creates one timer, and nothing removes or
    reuses one: after any sequence of calls that return or raise, the
    object has as many timers more as there were calls of [start_run]. *)
Theorem one_timer_per_start_run cs : forall s s',
  after_all cs s = Some s' ->
  length (timers s') = (length (timers s) + start_runs cs)%nat.
Proof.
  induction cs as [|c cs IH]; intros s s' Hcs; cbn in Hcs |- *.
  - injection Hcs as <-. lia.
  - destruct (after c s) as [s1|] eqn:Hc; [|discriminate]. cbn in Hcs.
    rewrite (IH s1 s' Hcs), (after_timers_length c s s1 Hc). lia.
Qed.

Lemma one_timer_per_start_run_witness :
  length (timers (stop (start_run 10 90 4 2 (Some (UserCallback 2))
                          (get_data first_run).2).2).2) =
    (length (timers init) + 2)%nat.
Proof.
  apply (one_timer_per_start_run
           [call_start_run 10 90 4 2 (Some (UserCallback 1));
            call_get_data;
            call_start_run 10 90 4 2 (Some (UserCallback 2));
            call_stop] init).
  reflexivity.
Defined.

(** X17: once set, the event stays set until the next [start_run]: time and
    every other call leave it set, and [wait_for_data] returns at once,
    leaving the object as it is. *)
Theorem data_is_ready_stays_set s :
  data_is_ready s = true ->
  wait_for_data s = Some s /\
  (forall dt, data_is_ready (advance dt s) = true) /\
  (forall c s', starts_run c = false -> after c s = Some s' ->
     data_is_ready s' = true).
Proof.
  intros Hr.
  assert (wait_for_data s = Some s) as Hw
    by (unfold wait_for_data; rewrite Hr; reflexivity).
  assert (forall dt, data_is_ready (advance dt s) = true) as Hadv
    by (intros dt; rewrite advance_eq; cbn; rewrite Hr; reflexivity).
  split; [exact Hw|]. split; [exact Hadv|].
  intros c s' Hc Hs'. destruct (read_only c) eqn:Hro.
  - rewrite after_read_only in Hs' by exact Hro. injection Hs' as <-.
    exact Hr.
  - destruct c; try discriminate; cbn [after] in Hs'.
    + rewrite Hw in Hs'. injection Hs' as <-. exact Hr.
    + apply (inj Some) in Hs'. subst s'. rewrite stop_eq. cbn.
      destruct (_timer s); exact Hr.
Qed.

Lemma data_is_ready_stays_set_witness :
  wait_for_data (advance 500 example_run) = Some (advance 500 example_run).
Proof.
  apply (data_is_ready_stays_set (advance 500 example_run)). reflexivity.
Defined.

(** X18: the data of a run started with the default callback is not ready
    before [run_delay] (0.5 s) has passed since [start_run]: the event is
    clear at every earlier time (no earlier run with the default callback
    being under way). *)
Theorem data_is_ready_clear_before_delay s pre post t caps (dt : nat) :
  ready_times s = [] -> (dt < run_delay)%nat ->
  data_is_ready (advance dt (start_run pre post t caps None s).2) = false.
Proof.
  intros Hnil Hdt. apply ready_times_nil in Hnil.
  rewrite advance_eq. cbn [data_is_ready]. rewrite start_run_eq.
  cbn [snd data_is_ready timers clock default orb].
  rewrite existsb_app, existsb_not_pending by exact Hnil.
  cbn [existsb orb]. rewrite fires_new_timer.
  destruct (Nat.leb_spec (clock s + run_delay) (clock s + dt)); [lia|].
  reflexivity.
Qed.

Lemma data_is_ready_clear_before_delay_witness :
  data_is_ready (advance 499 (start_run 10 90 4 2 None init).2) = false.
Proof.
  apply (data_is_ready_clear_before_delay init 10 90 4 2 499);
    [reflexivity | unfold run_delay; lia].
Defined.
